(** * Minion backend, site views: a shallow embedding of
    [minion/backend/views/sites.py] and the properties of its handlers.

    The file has two parts.  The first holds the embedding: a matcher for the
    fragment of Python's [re] that [_check_site_url] uses, the Mongo
    collections as lists of documents, and the view functions as computations
    in a state-and-exception monad over the database.  The second part holds
    the lemmas and theorems.

    Conventions of the embedding:
    - a view is modelled as the function of the parsed JSON body that its
      Python body is; routing and the [api_guard] decorator are outside;
    - a request has the shape the comments of the source document: a field
      that may be missing is an [option], and the values inside the
      [schedule] and [authData] dictionaries are JSON scalars;
    - strings are sequences of 8-bit characters, so [\d] is [[0-9]] and
      [str] is total;
    - an exception leaves a view without a response; writes made before it
      stay, since the store has no transactions. *)

From Stdlib Require Import Ascii String ZArith Lia DecimalString.
From stdpp Require Import base tactics option list strings gmap.

Local Open Scope string_scope.
Local Open Scope list_scope.

(* ===================================================================== *)
(** * Part I: the embedding *)
(* ===================================================================== *)

(** ** Regular expressions, as [re.compile(..).match] reads them *)

(** The pattern language of [_check_site_url]: literals, character sets made
    of ranges, sequencing, alternation, iteration and the two anchors.
    Groups only delimit sub-expressions; nothing reads a captured group. *)
Inductive regex : Type :=
| Eps
| Chr (a : ascii)
| OneOf (ranges : list (ascii * ascii))
| Seq (r1 r2 : regex)
| Alt (r1 r2 : regex)
| Star (r : regex)
| Bol
| Eol.

(** A matcher position: whether no character has been consumed yet, and the
    rest of the subject string. *)
Definition cfg : Type := bool * list ascii.

Definition in_range (lo hi c : ascii) : bool :=
  (nat_of_ascii lo <=? nat_of_ascii c)%nat && (nat_of_ascii c <=? nat_of_ascii hi)%nat.

Definition in_ranges (ranges : list (ascii * ascii)) (c : ascii) : bool :=
  existsb (fun r => in_range r.1 r.2 c) ranges.

(** One character, when [p] accepts it. *)
Definition eat (p : ascii -> bool) (c : cfg) : list cfg :=
  match c.2 with
  | x :: s => if p x then [(false, s)] else []
  | [] => []
  end.

(** Iteration: every position reachable by repeating [step]; an iteration
    that consumes nothing reaches nothing new, so only consuming ones are
    followed, and [fuel] bounds their number by the length of the subject. *)
Fixpoint star_run (step : cfg -> list cfg) (fuel : nat) (c : cfg) : list cfg :=
  c :: match fuel with
       | O => []
       | S f =>
           flat_map (star_run step f)
             (filter (fun c' => length c'.2 < length c.2) (step c))
       end.

(** All positions at which a match of [r] started at [c] can end. *)
Fixpoint run (r : regex) (c : cfg) : list cfg :=
  match r with
  | Eps => [c]
  | Chr a => eat (Ascii.eqb a) c
  | OneOf ranges => eat (in_ranges ranges) c
  | Seq r1 r2 => flat_map (run r2) (run r1 c)
  | Alt r1 r2 => run r1 c ++ run r2 c
  | Star r1 => star_run (run r1) (length c.2) c
  | Bol => if c.1 then [c] else []
  | Eol =>
      match c.2 with
      | [] => [c]
      | [x] => if Ascii.eqb x "010"%char then [c] else []
      | _ => []
      end
  end.

(** [regex.match(s) is not None]: a match anchored at the start of [s]; it
    need not reach the end of [s]. *)
Definition re_match (r : regex) (s : string) : bool :=
  match run r (true, list_ascii_of_string s) with
  | [] => false
  | _ :: _ => true
  end.

(** Derived forms. *)
Fixpoint Lit (s : string) : regex :=
  match s with
  | EmptyString => Eps
  | String a s' => Seq (Chr a) (Lit s')
  end.

Definition Plus (r : regex) : regex := Seq r (Star r).
Definition Opt (r : regex) : regex := Alt r Eps.

Fixpoint Rep (n : nat) (r : regex) : regex :=
  match n with
  | O => Eps
  | S n' => Seq r (Rep n' r)
  end.


(** ** [_check_site_url] *)

Definition digit : regex := OneOf [("0", "9")]%char.
Definition alnum : regex := OneOf [("a", "z"); ("0", "9")]%char.
Definition alnum_dash : regex := OneOf [("-", "-"); ("a", "z"); ("0", "9")]%char.

(** [[a-z0-9][-a-z0-9]*] *)
Definition label_re : regex := Seq alnum (Star alnum_dash).

(** [([0-9]|[1-9][0-9]|1[0-9]{2}|2[0-4][0-9]|25[0-5])] *)
Definition octet_re : regex :=
  Alt digit
    (Alt (Seq (OneOf [("1", "9")]%char) digit)
       (Alt (Seq (Chr "1") (Rep 2 digit))
          (Alt (Seq (Chr "2") (Seq (OneOf [("0", "4")]%char) digit))
             (Seq (Lit "25") (OneOf [("0", "5")]%char))))).

(** [(\d|[1-2]\d|3[0-2])] *)
Definition prefix_len_re : regex :=
  Alt digit
    (Alt (Seq (OneOf [("1", "2")]%char) digit)
       (Seq (Chr "3") (OneOf [("0", "2")]%char))).

(** [^((http|https)://(localhost|LABEL(\.LABEL)+)(:\d+)?)] *)
Definition named_host_re : regex :=
  Seq Bol
    (Seq (Seq (Alt (Lit "http") (Lit "https"))
            (Seq (Lit "://")
               (Alt (Lit "localhost")
                  (Seq label_re (Plus (Seq (Chr ".") label_re))))))
       (Opt (Seq (Chr ":") (Plus digit)))).

(** [(((OCTET)\.){3}(OCTET)(\/(\d|[1-2]\d|3[0-2]))?)$] *)
Definition address_re : regex :=
  Seq (Seq (Rep 3 (Seq octet_re (Chr ".")))
         (Seq octet_re (Opt (Seq (Chr "/") prefix_len_re))))
    Eol.

(** The whole pattern: the top-level [|] splits it into the two alternatives
    above, so [^] belongs to the first only and [$] to the second only. *)
Definition site_url_regex : regex := Alt named_host_re address_re.

(** Exceptions the handlers can raise, and results. *)
Inductive exn : Type :=
| TypeError
| KeyError (key : string).

Inductive outcome (A : Type) : Type :=
| Ret (a : A)
| Raise (e : exn).
Arguments Ret {A} a.
Arguments Raise {A} e.

(** [url] is what [site.get('url')] gave: [None] when the key is absent, and
    [regex.match(None)] raises [TypeError]. *)
Definition _check_site_url (url : option string) : outcome bool :=
  match url with
  | None => Raise TypeError
  | Some u => Ret (re_match site_url_regex u)
  end.

(** ** Python values and the documents of the four collections *)

(** The scalar JSON values a request carries in the fields the handlers
    inspect ([None] is JSON [null]). *)
Inductive pyval : Type :=
| PNone
| PBool (b : bool)
| PInt (n : Z)
| PStr (s : string).

(** Truth value of [if v:]. *)
Definition truthy (v : pyval) : bool :=
  match v with
  | PNone => false
  | PBool b => b
  | PInt n => negb (n =? 0)%Z
  | PStr s => negb (s =? "")%string
  end.

(** [str(v)]. *)
Definition py_str (v : pyval) : string :=
  match v with
  | PNone => "None"
  | PBool true => "True"
  | PBool false => "False"
  | PInt n => NilZero.string_of_int (Z.to_int n)
  | PStr s => s
  end.

(** [d.get(k)] on a dictionary of scalars: [None] when [k] is absent. *)
Definition dict_get (d : gmap string pyval) (k : string) : pyval :=
  default PNone (d !! k).

Record verification : Type := Verification {
  v_enabled : bool;
  v_value : option string
}.

(** A document of [sites]; [created] is a UTC time in microseconds.  Mongo's
    own [_id] is left out: no handler reads it and [sanitize_site] strips
    it from every response. *)
Record site_doc : Type := SiteDoc {
  s_id : string;
  s_url : string;
  s_plans : list string;
  s_created : Z;
  s_verification : option verification
}.

Record group_doc : Type := GroupDoc {
  g_name : string;
  g_description : string;
  g_sites : list string
}.

Record cred_doc : Type := CredDoc {
  c_site : string;
  c_plan : string;
  c_authData : gmap string pyval
}.

Record crontab : Type := Crontab {
  minute : string;
  hour : string;
  day_of_week : string;
  day_of_month : string;
  month_of_year : string
}.

Record schedule_doc : Type := ScheduleDoc {
  p_cls : string;
  p_task : string;
  p_args : list string;
  p_site : string;
  p_queue : string;
  p_routing_key : string;
  p_exchange : string;
  p_plan : string;
  p_name : string;
  p_enabled : bool;
  p_crontab : crontab
}.

(** The database: the four collections of [views/base.py], each a list of
    documents in insertion order, and the number of UUIDs drawn so far. *)
Record db : Type := Db {
  sites : list site_doc;
  groups : list group_doc;
  scanschedules : list schedule_doc;
  siteCredentials : list cred_doc;
  uuids : nat
}.

(** ** The collection operations the views use *)

Section Collection.
Context {A : Type}.

(** [find_one(q)]: the first document matching [q]. *)
Definition find_one (q : A -> bool) (c : list A) : option A := List.find q c.

(** [find(q)]: all matching documents, in order. *)
Definition find (q : A -> bool) (c : list A) : list A := List.filter q c.

(** [insert(d)]. *)
Definition insert_doc (d : A) (c : list A) : list A := c ++ [d].

(** [update(q, u)] (no [multi], no [upsert]): [u] is applied to the first
    matching document only. *)
Fixpoint update_one (q : A -> bool) (u : A -> A) (c : list A) : list A :=
  match c with
  | [] => []
  | d :: c' => if q d then u d :: c' else d :: update_one q u c'
  end.

(** [remove(q)]: every matching document goes. *)
Definition remove_docs (q : A -> bool) (c : list A) : list A :=
  List.filter (fun d => negb (q d)) c.
End Collection.

Definition mem (x : string) (l : list string) : bool :=
  existsb (String.eqb x) l.

(** [{'$addToSet': {'sites': url}}] and [{'$pull': {'sites': url}}]. *)
Definition addToSet_sites (url : string) (g : group_doc) : group_doc :=
  GroupDoc (g_name g) (g_description g)
    (if mem url (g_sites g) then g_sites g else g_sites g ++ [url]).

Definition pull_sites (url : string) (g : group_doc) : group_doc :=
  GroupDoc (g_name g) (g_description g)
    (List.filter (fun u => negb (String.eqb u url)) (g_sites g)).

(** ** Computations over the database *)

(** A view runs against the database and either returns or raises; what it
    wrote before raising stays written. *)
Definition M (A : Type) : Type := db -> db * outcome A.

Definition ret {A} (a : A) : M A := fun s => (s, Ret a).
Definition raise {A} (e : exn) : M A := fun s => (s, Raise e).
Definition bind {A B} (m : M A) (k : A -> M B) : M B :=
  fun s => match m s with
           | (s', Ret a) => k a s'
           | (s', Raise e) => (s', Raise e)
           end.
Definition get_db : M db := fun s => (s, Ret s).
Definition put_db (s' : db) : M unit := fun _ => (s', Ret tt).
Definition lift {A} (o : outcome A) : M A := fun s => (s, o).

Notation "'do' x <- m ; k" := (bind m (fun x => k))
  (at level 60, x name, m at next level, right associativity).

(** [for x in l: body(x)]. *)
Fixpoint for_each {A} (l : list A) (body : A -> M unit) : M unit :=
  match l with
  | [] => ret tt
  | x :: l' => do _ <- body x; for_each l' body
  end.

(** [d[key]] on an optional field: [KeyError] when absent. *)
Definition item {A} (key : string) (field : option A) : M A :=
  match field with
  | Some a => ret a
  | None => raise (KeyError key)
  end.

Definition set_sites (f : list site_doc -> list site_doc) : M unit :=
  do s <- get_db;
  put_db (Db (f (sites s)) (groups s) (scanschedules s) (siteCredentials s) (uuids s)).

Definition set_groups (f : list group_doc -> list group_doc) : M unit :=
  do s <- get_db;
  put_db (Db (sites s) (f (groups s)) (scanschedules s) (siteCredentials s) (uuids s)).

Definition set_scanschedules (f : list schedule_doc -> list schedule_doc) : M unit :=
  do s <- get_db;
  put_db (Db (sites s) (groups s) (f (scanschedules s)) (siteCredentials s) (uuids s)).

Definition set_siteCredentials (f : list cred_doc -> list cred_doc) : M unit :=
  do s <- get_db;
  put_db (Db (sites s) (groups s) (scanschedules s) (f (siteCredentials s)) (uuids s)).

(** ** Requests and responses *)

(** The [verification] object of a request. *)
Record verification_req : Type := VerificationReq {
  vr_enabled : option bool
}.

(** The "partially filled out site" that [POST /sites] and
    [POST /sites/<site_id>] receive; a field is [None] when its key is absent
    from the JSON body. *)
Record site_req : Type := SiteReq {
  r_url : option string;
  r_plans : option (list string);
  r_groups : option (list string);
  r_verification : option verification_req
}.

(** The body of [POST /setCredentials]. *)
Record cred_req : Type := CredReq {
  k_site : string;
  k_plan : string;
  k_authData : gmap string pyval
}.

(** The body of [POST /scanschedule]:
    [{scan_id, schedule: {minute, hour, dayOfWeek, dayOfMonth, monthOfYear,
    remove?}, plan, target}]. *)
Record schedule_req : Type := ScheduleReq {
  q_scan_id : pyval;
  q_schedule : gmap string pyval;
  q_plan : string;
  q_target : string
}.

(** A site as a response shows it: [created] in Unix seconds, and the
    derived [groups]. *)
Record site_view : Type := SiteView {
  sv_id : string;
  sv_url : string;
  sv_plans : list string;
  sv_created : Z;
  sv_verification : option verification;
  sv_groups : list string
}.

(** The shapes of [jsonify(...)] the views return. *)
Inductive response : Type :=
| Fail (reason : string)
| SiteResp (site : site_view)
| CredInfoResp (credInfo : gmap string (gmap string cred_doc))
| MessageResp (message : string) (ok : bool)
| CronErrors (message : string) (errors : list string).


(** ** What the views call outside this file *)

(** [uuid4 n] is the text of the [n]-th [uuid.uuid4()] drawn, [utcnow] the
    clock reading of the request, [_check_plan_exists] the lookup in the plan
    store (no view here writes it), [_check_required_fields] the helper of
    [views/base.py], and [crontab_parser max_ min_ spec] tells whether
    celery's [crontab_parser(max_, min_).parse(spec)] returns ([true]) or
    raises [ValueError] or [ParseException] ([false]). *)
Class Collaborators : Type := {
  uuid4 : nat -> string;
  utcnow : Z;
  _check_plan_exists : string -> bool;
  _check_required_fields : site_req -> list string -> bool;
  crontab_parser : nat -> nat -> string -> bool
}.

(** Modelled from the spec: [_check_group_exists] of [views/groups.py], which
    is not among the sources.  A referenced group exists when the group
    collection holds a record of that name. *)
Definition _check_group_exists (s : db) (group_name : string) : bool :=
  existsb (fun g => String.eqb (g_name g) group_name) (groups s).

(** ** The views *)

Section Views.
Context {ext : Collaborators}.

Definition new_uuid : M string :=
  fun s =>
    (Db (sites s) (groups s) (scanschedules s) (siteCredentials s) (S (uuids s)),
     Ret (uuid4 (uuids s))).

Definition _find_groups_for_site (site : string) : M (list string) :=
  do s <- get_db;
  ret (List.map g_name (find (fun g => mem site (g_sites g)) (groups s))).

(** [calendar.timegm(d.utctimetuple())]: whole seconds. *)
Definition timegm (d : Z) : Z := (d / 1000000)%Z.

(** [site] is the document together with the [groups] entry the caller
    put into it. *)
Definition sanitize_site (site : site_doc * list string) : site_view :=
  SiteView (s_id site.1) (s_url site.1) (s_plans site.1)
    (timegm (s_created site.1)) (s_verification site.1) site.2.

Definition check_cron (crontab : crontab) : list string :=
  let cron_errors := [] in
  let cron_errors :=
    if crontab_parser 60 0 (minute crontab) then cron_errors
    else cron_errors ++ ["Error in Value: Minute"] in
  let cron_errors :=
    if crontab_parser 24 0 (hour crontab) then cron_errors
    else cron_errors ++ ["Error in Value: Hour"] in
  let cron_errors :=
    if crontab_parser 7 0 (day_of_week crontab) then cron_errors
    else cron_errors ++ ["Error in Value: Day of Week"] in
  let cron_errors :=
    if crontab_parser 31 1 (day_of_month crontab) then cron_errors
    else cron_errors ++ ["Error in Value: Day of Month"] in
  let cron_errors :=
    if crontab_parser 12 1 (month_of_year crontab) then cron_errors
    else cron_errors ++ ["Error in Value: Month of Year"] in
  cron_errors.

Definition by_name (group_name : string) (g : group_doc) : bool :=
  String.eqb (g_name g) group_name.

Definition by_id (site_id : string) (d : site_doc) : bool :=
  String.eqb (s_id d) site_id.

Definition by_url (url : string) (d : site_doc) : bool :=
  String.eqb (s_url d) url.

Definition create_site (site : site_req) : M response :=
  do valid <- lift (_check_site_url (r_url site));
  if negb valid then ret (Fail "invalid-url") else
  if negb (_check_required_fields site ["url"]) then
    ret (Fail "missing-required-field") else
  do s <- get_db;
  if negb (forallb (_check_group_exists s) (default [] (r_groups site))) then
    ret (Fail "unknown-group") else
  if negb (forallb _check_plan_exists (default [] (r_plans site))) then
    ret (Fail "unknown-plan") else
  do url <- item "url" (r_url site);
  match find_one (by_url url) (sites s) with
  | Some _ => ret (Fail "site-already-exists")
  | None =>
      do id <- new_uuid;
      do v <-
        (match r_verification site with
         | Some (VerificationReq (Some true)) =>
             do value <- new_uuid; ret (Verification true (Some value))
         | _ => ret (Verification false None)
         end);
      let new_site := SiteDoc id url (default [] (r_plans site)) utcnow (Some v) in
      do _ <- set_sites (insert_doc new_site);
      do _ <- for_each (default [] (r_groups site)) (fun group_name =>
                set_groups (update_one (by_name group_name) (addToSet_sites url)));
      ret (SiteResp (sanitize_site (new_site, default [] (r_groups site))))
  end.

Definition set_plans (plans : list string) (d : site_doc) : site_doc :=
  SiteDoc (s_id d) (s_url d) plans (s_created d) (s_verification d).

Definition set_verification (v : verification) (d : site_doc) : site_doc :=
  SiteDoc (s_id d) (s_url d) (s_plans d) (s_created d) (Some v).

(** The two loops of [update_site] over the group lists. *)
Definition add_new_groups (url : string) (requested derived : list string)
    : M unit :=
  for_each requested (fun group_name =>
    if negb (mem group_name derived) then
      set_groups (update_one (by_name group_name) (addToSet_sites url))
    else ret tt).

Definition remove_old_groups (url : string) (requested derived : list string)
    : M unit :=
  for_each derived (fun group_name =>
    if negb (mem group_name requested) then
      set_groups (update_one (by_name group_name) (pull_sites url))
    else ret tt).

Definition update_site (site_id : string) (new_site : site_req) : M response :=
  do s <- get_db;
  match find_one (by_id site_id) (sites s) with
  | None => ret (Fail "no-such-site")
  | Some site =>
      do site_groups <- _find_groups_for_site (s_url site);
      if negb (forallb (_check_group_exists s) (default [] (r_groups new_site))) then
        ret (Fail "unknown-group") else
      if negb (forallb _check_plan_exists (default [] (r_plans new_site))) then
        ret (Fail "unknown-plan") else
      do _ <-
        (match r_groups new_site with
         | Some requested =>
             do _ <- add_new_groups (s_url site) requested site_groups;
             remove_old_groups (s_url site) requested site_groups
         | None => ret tt
         end);
      do _ <-
        (match r_plans new_site with
         | Some plans => set_sites (update_one (by_id site_id) (set_plans plans))
         | None => ret tt
         end);
      do new_verification <- item "verification" (r_verification new_site);
      let old_verification := s_verification site in
      do changed <-
        (match old_verification with
         | None => ret true
         | Some old =>
             do enabled <- item "enabled" (vr_enabled new_verification);
             ret (negb (Bool.eqb (v_enabled old) enabled))
         end);
      do _ <-
        (if changed then
           do enabled <- item "enabled" (vr_enabled new_verification);
           do value <- new_uuid;
           set_sites (update_one (by_id site_id)
                        (set_verification (Verification enabled (Some value))))
         else ret tt);
      do s' <- get_db;
      match find_one (by_id site_id) (sites s') with
      | None => ret (Fail "no-such-site")
      | Some site' =>
          do site_groups' <- _find_groups_for_site (s_url site');
          ret (SiteResp (sanitize_site (site', site_groups')))
      end
  end.

Definition get_credInfo : M response :=
  do s <- get_db;
  let credInfo :=
    fold_left
      (fun (credInfo : gmap string (gmap string cred_doc)) site =>
         let data :=
           CredDoc (c_site site) (c_plan site)
             (<["password" := PStr ""]> (c_authData site)) in
         let credInfo :=
           match credInfo !! c_site site with
           | None => <[c_site site := ∅]> credInfo
           | Some _ => credInfo
           end in
         let plans := default ∅ (credInfo !! c_site site) in
         <[c_site site := <[c_plan site := data]> plans]> credInfo)
      (find (fun _ => true) (siteCredentials s)) ∅ in
  ret (CredInfoResp credInfo).

Definition by_site_plan (site plan : string) (d : cred_doc) : bool :=
  String.eqb (c_site d) site && String.eqb (c_plan d) plan.

(** [{"$set": updatedAuthData}]: every ['authData.<k>'] entry overwrites
    field [k] of the stored [authData]; the other stored fields stay. *)
Definition set_authData (updatedAuthData : gmap string pyval) (d : cred_doc)
    : cred_doc :=
  CredDoc (c_site d) (c_plan d) (updatedAuthData ∪ c_authData d).

Definition setCredentials (cred_data : cred_req) : M response :=
  let site := k_site cred_data in
  let plan := k_plan cred_data in
  let authData := k_authData cred_data in
  let data := CredDoc site plan authData in
  if truthy (dict_get authData "remove") then
    do _ <- set_siteCredentials (remove_docs (by_site_plan site plan));
    ret (MessageResp "Removed Site Credentials" true)
  else
    do s <- get_db;
    do _ <-
      (match find_one (by_site_plan site plan) (siteCredentials s) with
       | None => set_siteCredentials (insert_doc data)
       | Some _ =>
           let updatedAuthData : gmap string pyval :=
             list_to_map
               [("method", dict_get authData "method");
                ("url", dict_get authData "url");
                ("email", dict_get authData "email");
                ("before_login_element_xpath",
                  dict_get authData "before_login_element_xpath");
                ("login_button_xpath", dict_get authData "login_button_xpath");
                ("login_script", dict_get authData "login_script");
                ("after_login_element_xpath",
                  dict_get authData "after_login_element_xpath");
                ("username", dict_get authData "username");
                ("username_field_xpath", dict_get authData "username_field_xpath");
                ("password_field_xpath", dict_get authData "password_field_xpath");
                ("expected_cookies", dict_get authData "expected_cookies")] in
           let password := dict_get authData "password" in
           let updatedAuthData :=
             if truthy password then <["password" := password]> updatedAuthData
             else updatedAuthData in
           set_siteCredentials
             (update_one (by_site_plan site plan) (set_authData updatedAuthData))
       end);
    ret (MessageResp "Added Site Credentials" true).

Definition by_target_plan (target plan : string) (d : schedule_doc) : bool :=
  String.eqb (p_site d) target && String.eqb (p_plan d) plan.

(** [{"$set": {"crontab": crontab, "enabled": enabled}}]. *)
Definition set_crontab_enabled (crontab : crontab) (enabled : bool)
    (d : schedule_doc) : schedule_doc :=
  ScheduleDoc (p_cls d) (p_task d) (p_args d) (p_site d) (p_queue d)
    (p_routing_key d) (p_exchange d) (p_plan d) (p_name d) enabled crontab.

(** The [crontab] dictionary [scanschedule] builds from the request. *)
Definition request_crontab (schedule : gmap string pyval) : crontab :=
  Crontab (py_str (dict_get schedule "minute"))
    (py_str (dict_get schedule "hour"))
    (py_str (dict_get schedule "dayOfWeek"))
    (py_str (dict_get schedule "dayOfMonth"))
    (py_str (dict_get schedule "monthOfYear")).

Definition scanschedule (site : schedule_req) : M response :=
  let schedule := q_schedule site in
  let plan := q_plan site in
  let target := q_target site in
  let removeSite := dict_get schedule "remove" in
  let '(enabled, message) :=
    match removeSite with
    | PNone => (true, "Scheduled Scan successfully set for site: " +:+ target)
    | _ => (false, "Removed Schedule for: " +:+ target)
    end in
  let crontab := request_crontab schedule in
  let crontab_errors := check_cron crontab in
  match crontab_errors with
  | _ :: _ => ret (CronErrors "Error in crontab values" crontab_errors)
  | [] =>
      let data :=
        ScheduleDoc "PeriodicTask" "minion.backend.tasks.run_scheduled_scan"
          [target; plan] target "scanschedule" "scanschedule" "" plan
          (target +:+ ":" +:+ plan) enabled crontab in
      do s <- get_db;
      do _ <-
        (match find_one (by_target_plan target plan) (scanschedules s) with
         | None => set_scanschedules (insert_doc data)
         | Some _ =>
             set_scanschedules
               (update_one (by_target_plan target plan)
                  (set_crontab_enabled crontab enabled))
         end);
      ret (MessageResp message true)
  end.
End Views.

(** ** The URL grammar in words *)

(** The shapes of site URL the registry documents, stated on the characters
    of the string and independently of the pattern above. *)

Definition is_digit (c : ascii) : bool := in_range "0" "9" c.




Definition digit_value (c : ascii) : nat := nat_of_ascii c - 48.

Definition numeral_value (l : list ascii) : nat :=
  fold_left (fun acc c => 10 * acc + digit_value c) l 0.




Definition chars (s : string) : list ascii := list_ascii_of_string s.






(** The grammar as the specification words it, as a pattern that has to
    match the whole string: [http(s)://] followed by ([localhost] | a host
    name of two labels or more | a dotted quad with an optional [/0-32]
    suffix), then an optional [:port]. *)
Definition spec_site_url_regex : regex :=
  Seq (Alt (Lit "http") (Lit "https"))
    (Seq (Lit "://")
       (Seq (Alt (Lit "localhost")
               (Alt (Seq label_re (Plus (Seq (Chr ".") label_re)))
                  (Seq (Rep 3 (Seq octet_re (Chr ".")))
                     (Seq octet_re (Opt (Seq (Chr "/") prefix_len_re))))))
          (Opt (Seq (Chr ":") (Plus digit))))).

Definition full_match (r : regex) (s : string) : bool :=
  existsb (fun c => match c.2 with [] => true | _ => false end)
    (run r (true, chars s)).

Definition spec_site_url (url : string) : bool :=
  full_match spec_site_url_regex url.

(** ** Specification-side notions *)

(** The fields of [authData] that [setCredentials] overwrites on every
    update. *)
Definition overwritten_fields : list string :=
  ["method"; "url"; "email"; "before_login_element_xpath"; "login_button_xpath";
   "login_script"; "after_login_element_xpath"; "username";
   "username_field_xpath"; "password_field_xpath"; "expected_cookies"].

(** Everything in a schedule record but [crontab] and [enabled]. *)
Definition descriptor (d : schedule_doc) :=
  (p_cls d, p_task d, p_args d, p_site d, p_queue d, p_routing_key d,
   p_exchange d, p_plan d, p_name d).

(** The groups a site is derived to be in, in a given database. *)
Definition groups_for_site (s : db) (url : string) : list string :=
  List.map g_name (find (fun g => mem url (g_sites g)) (groups s)).

(** What the two loops of [update_site] leave of a group record: the URL
    added when the group is requested and was not derived, pulled when it was
    derived and is not requested, and the record as it was otherwise. *)
Definition reconciled (url : string) (requested derived : list string)
    (g : group_doc) : group_doc :=
  if mem (g_name g) requested && negb (mem (g_name g) derived) then
    addToSet_sites url g
  else if mem (g_name g) derived && negb (mem (g_name g) requested) then
    pull_sites url g
  else g.

(** ** The pieces of a schedule request *)

Definition field_error (ok : bool) (text : string) : list string :=
  if ok then [] else [text].

(** The [enabled] flag [scanschedule] computes. *)
Definition requested_enabled (site : schedule_req) : bool :=
  match dict_get (q_schedule site) "remove" with
  | PNone => true
  | _ => false
  end.

Definition requested_message (site : schedule_req) : string :=
  match dict_get (q_schedule site) "remove" with
  | PNone => "Scheduled Scan successfully set for site: " +:+ q_target site
  | _ => "Removed Schedule for: " +:+ q_target site
  end.

Definition new_descriptor (site : schedule_req) : schedule_doc :=
  ScheduleDoc "PeriodicTask" "minion.backend.tasks.run_scheduled_scan"
    [q_target site; q_plan site] (q_target site) "scanschedule" "scanschedule" ""
    (q_plan site) (q_target site +:+ ":" +:+ q_plan site)
    (requested_enabled site) (request_crontab (q_schedule site)).


(** ** A model of the collaborators *)

(** Modelled from the spec: celery's [crontab_parser], a library outside the
    sources.  A field is a comma-separated union of parts; a part is [*], a
    number, a range [a-b], or one of [*] and [a-b] followed by [/step]; the
    numbers lie between [min_] and [min_ + max_ - 1]. *)
Fixpoint split_on (sep : ascii) (s : list ascii) : list (list ascii) :=
  match s with
  | [] => [[]]
  | c :: s' =>
      if Ascii.eqb c sep then [] :: split_on sep s'
      else match split_on sep s' with
           | p :: ps => (c :: p) :: ps
           | [] => [[c]]
           end
  end.

Definition number (s : list ascii) : option nat :=
  match s with
  | [] => None
  | _ :: _ => if forallb is_digit s then Some (numeral_value s) else None
  end.

Definition in_field (max_ min_ : nat) (s : list ascii) : bool :=
  match number s with
  | Some n => (min_ <=? n)%nat && (n <? min_ + max_)%nat
  | None => false
  end.

Definition is_star (s : list ascii) : bool :=
  match s with
  | [c] => Ascii.eqb c "*"
  | _ => false
  end.

Definition range_ok (max_ min_ : nat) (s : list ascii) : bool :=
  match split_on "-" s with
  | [a; b] => in_field max_ min_ a && in_field max_ min_ b
  | _ => false
  end.

Definition part_ok (max_ min_ : nat) (part : list ascii) : bool :=
  match split_on "/" part with
  | [base] => is_star base || in_field max_ min_ base || range_ok max_ min_ base
  | [base; step] =>
      (is_star base || range_ok max_ min_ base) &&
      match number step with
      | Some n => (0 <? n)%nat
      | None => false
      end
  | _ => false
  end.

Definition spec_crontab_parser (max_ min_ : nat) (spec : string) : bool :=
  forallb (part_ok max_ min_) (split_on "," (chars spec)).

(** Modelled from the spec: [_check_required_fields] of [views/base.py],
    which is not among the sources (a copy is commented out in [sites.py]):
    every listed field is a key of the request. *)
Definition site_has_key (site : site_req) (field : string) : bool :=
  if String.eqb field "url" then bool_decide (is_Some (r_url site))
  else if String.eqb field "plans" then bool_decide (is_Some (r_plans site))
  else if String.eqb field "groups" then bool_decide (is_Some (r_groups site))
  else if String.eqb field "verification" then
    bool_decide (is_Some (r_verification site))
  else false.

Definition spec_check_required_fields (expected : site_req) (fields : list string)
    : bool :=
  forallb (site_has_key expected) fields.

(** One instance of the collaborators, to run the views on examples. *)
Definition model_ext : Collaborators := {|
  uuid4 := fun n => "uuid-" +:+ NilZero.string_of_uint (Nat.to_uint n);
  utcnow := 1400000000123456%Z;
  _check_plan_exists := fun plan_name => mem plan_name ["basic"; "nmap"];
  _check_required_fields := spec_check_required_fields;
  crontab_parser := spec_crontab_parser
|}.

(** ** Example data *)

Definition mozilla : site_doc :=
  SiteDoc "b263bdc6" "https://www.mozilla.com" ["basic"] 1390000000000000%Z
    (Some (Verification false None)).

Definition example_db : db :=
  Db [mozilla]
     [GroupDoc "A" "" ["https://www.mozilla.com"];
      GroupDoc "B" "" ["http://other.example.org"; "https://www.mozilla.com"];
      GroupDoc "C" "" []]
     []
     [CredDoc "https://www.mozilla.com" "basic"
        {["method" := PStr "basic"; "username" := PStr "admin";
          "password" := PStr "s3cret"]}]
     0.

Definition empty_db : db := Db [] [] [] [] 0.


Definition nightly : gmap string pyval :=
  {["minute" := PStr "*/5"; "hour" := PInt 5; "dayOfWeek" := PStr "1-5";
    "dayOfMonth" := PStr "1,15"; "monthOfYear" := PStr "*"]}.

Definition schedule_request (schedule : gmap string pyval) : schedule_req :=
  ScheduleReq PNone schedule "basic" "https://www.mozilla.com".

(** A valid request that carries [remove: false]. *)
Definition keep_request : schedule_req :=
  schedule_request (<["remove" := PBool false]> nightly).

(** A database with one schedule stored. *)
Definition stored_nightly : schedule_doc :=
  ScheduleDoc "PeriodicTask" "minion.backend.tasks.run_scheduled_scan"
    ["https://www.mozilla.com"; "basic"] "https://www.mozilla.com" "scanschedule"
    "scanschedule" "" "basic" "https://www.mozilla.com:basic" true
    (Crontab "0" "0" "*" "*" "*").

Definition scheduled_db : db := Db [mozilla] [] [stored_nightly] [] 0.

(** A metadata-only edit of the stored credential (empty password), and its
    removal. *)
Definition edit_request : cred_req :=
  CredReq "https://www.mozilla.com" "basic"
    {["method" := PStr "form"; "username" := PStr "root"; "password" := PStr ""]}.

Definition remove_request : cred_req :=
  CredReq "https://www.mozilla.com" "basic" {["remove" := PBool true]}.

Definition stored_credential : cred_doc :=
  CredDoc "https://www.mozilla.com" "basic"
    {["method" := PStr "basic"; "username" := PStr "admin";
      "password" := PStr "s3cret"]}.

(** The database with its group collection replaced. *)
Definition with_groups (s : db) (gs : list group_doc) : db :=
  Db (sites s) gs (scanschedules s) (siteCredentials s) (uuids s).

(** Whether [update_site] regenerates the verification of [site] for a
    request that asks for [enabled]. *)
Definition verification_changed (site : site_doc) (enabled : bool) : bool :=
  match s_verification site with
  | None => true
  | Some old => negb (Bool.eqb (v_enabled old) enabled)
  end.

(** The response [update_site] ends with, read off the final database. *)
Definition final_response (site_id : string) (s' : db) : outcome response :=
  match find_one (by_id site_id) (sites s') with
  | None => Ret (Fail "no-such-site")
  | Some site' =>
      Ret (SiteResp (sanitize_site (site', groups_for_site s' (s_url site'))))
  end.

(** Requests on the example site: move it from groups A, B to B, C; enable
    its verification; the same with a group that does not exist; and an
    update of the plans alone. *)
Definition regroup_request : site_req :=
  SiteReq None None (Some ["B"; "C"]) (Some (VerificationReq (Some false))).

Definition regrouped_db : db :=
  Db [mozilla]
     [GroupDoc "A" "" [];
      GroupDoc "B" "" ["http://other.example.org"; "https://www.mozilla.com"];
      GroupDoc "C" "" ["https://www.mozilla.com"]]
     []
     [stored_credential]
     0.

Definition regrouped_view : site_view :=
  SiteView "b263bdc6" "https://www.mozilla.com" ["basic"] 1390000000%Z
    (Some (Verification false None)) ["B"; "C"].

Definition enable_request : site_req :=
  SiteReq None None None (Some (VerificationReq (Some true))).

Definition enable_ghost_request : site_req :=
  SiteReq None None (Some ["ghost"]) (Some (VerificationReq (Some true))).

Definition plans_only_request : site_req :=
  SiteReq None (Some ["nmap"]) None None.

Definition ghost_only_request : site_req :=
  SiteReq None None (Some ["ghost"]) None.

(** A creation request without [url]. *)
Definition no_url_request : site_req :=
  SiteReq None (Some ["basic"]) None None.

(** ** The reading views *)

(** [GET /sites/<site_id>]. *)
Definition get_site (site_id : string) : M response :=
  do s <- get_db;
  match find_one (by_id site_id) (sites s) with
  | None => ret (Fail "no-such-site")
  | Some site =>
      do site_groups <- _find_groups_for_site (s_url site);
      ret (SiteResp (sanitize_site (site, site_groups)))
  end.

(** [[f(x) for x in l]] for an [f] that reads the database. *)
Fixpoint map_m {A B} (f : A -> M B) (l : list A) : M (list B) :=
  match l with
  | [] => ret []
  | x :: l' => do y <- f x; do ys <- map_m f l'; ret (y :: ys)
  end.

(** The one shape of [jsonify(success=True, sites=sitez)]. *)
Inductive listing : Type :=
| SitesResp (sites : list site_view).

(** [GET /sites], [url] being [request.args.get('url')]: the query is on the
    URL only when one is given and is not empty.  [sanitize_site] does not
    look at [groups], so each record is sanitized with its groups in it. *)
Definition get_sites (url : option string) : M listing :=
  let query :=
    match url with
    | Some u => if negb (u =? "")%string then by_url u else fun _ => true
    | None => fun _ => true
    end in
  do s <- get_db;
  do sitez <-
    map_m (fun site =>
             do site_groups <- _find_groups_for_site (s_url site);
             ret (sanitize_site (site, site_groups)))
      (find query (sites s));
  ret (SitesResp sitez).

(** The five messages of [check_cron], in the order of its checks. *)
Definition cron_messages : list string :=
  ["Error in Value: Minute"; "Error in Value: Hour"; "Error in Value: Day of Week";
   "Error in Value: Day of Month"; "Error in Value: Month of Year"].

(** ** The group writes of the site views, as functions on the collection *)

(** The loop of [create_site]: the URL goes into every requested group. *)
Definition add_site_to_groups (url : string) (requested : list string)
    (gs : list group_doc) : list group_doc :=
  fold_left (fun gs group_name => update_one (by_name group_name) (addToSet_sites url) gs)
    requested gs.

(** One turn of each loop of [update_site]. *)
Definition add_step (url : string) (derived : list string) (gs : list group_doc)
    (group_name : string) : list group_doc :=
  if negb (mem group_name derived)
  then update_one (by_name group_name) (addToSet_sites url) gs else gs.

Definition remove_step (url : string) (requested : list string) (gs : list group_doc)
    (group_name : string) : list group_doc :=
  if negb (mem group_name requested)
  then update_one (by_name group_name) (pull_sites url) gs else gs.

(** What [update_site] leaves of the group collection. *)
Definition groups_after_update (site : site_doc) (new_site : site_req) (s : db)
    : list group_doc :=
  match r_groups new_site with
  | Some requested =>
      let derived := groups_for_site s (s_url site) in
      fold_left (remove_step (s_url site) requested) derived
        (fold_left (add_step (s_url site) derived) requested (groups s))
  | None => groups s
  end.

(** Every member of every group is the URL of a stored site. *)
Definition members_are_sites (s : db) : Prop :=
  forall g u, In g (groups s) -> In u (g_sites g) -> In u (List.map s_url (sites s)).

(** Whether a creation request asks for verification. *)
Definition wants_verification (site : site_req) : bool :=
  match r_verification site with
  | Some (VerificationReq (Some true)) => true
  | _ => false
  end.

(** The record [create_site] stores for a request with this URL. *)
Definition created_site `{ext : Collaborators} (site : site_req) (url : string) (s : db)
    : site_doc :=
  SiteDoc (uuid4 (uuids s)) url (default [] (r_plans site)) utcnow
    (Some (if wants_verification site
           then Verification true (Some (uuid4 (S (uuids s))))
           else Verification false None)).

(** The names of the groups of a collection that hold a URL. *)
Definition groups_holding (url : string) (gs : list group_doc) : list string :=
  List.map g_name (find (fun g => mem url (g_sites g)) gs).

(** A view with its [groups] replaced. *)
Definition with_view_groups (v : site_view) (gs : list string) : site_view :=
  SiteView (sv_id v) (sv_url v) (sv_plans v) (sv_created v) (sv_verification v) gs.

(** ** Keys and listings of credentials and schedules *)

Definition cred_key (d : cred_doc) : string * string := (c_site d, c_plan d).

Definition schedule_key (d : schedule_doc) : string * string := (p_site d, p_plan d).

(** A credential as [get_credInfo] shows it. *)
Definition masked (d : cred_doc) : cred_doc :=
  CredDoc (c_site d) (c_plan d) (<["password" := PStr ""]> (c_authData d)).

(** One turn of the loop of [get_credInfo]. *)
Definition credInfo_add (credInfo : gmap string (gmap string cred_doc))
    (site : cred_doc) : gmap string (gmap string cred_doc) :=
  let credInfo :=
    match credInfo !! c_site site with
    | None => <[c_site site := ∅]> credInfo
    | Some _ => credInfo
    end in
  <[c_site site := <[c_plan site := masked site]> (default ∅ (credInfo !! c_site site))]>
    credInfo.

(** ** More example data *)

(** A new site for group C, with verification; the record it is answered
    with on [example_db]. *)
Definition new_site_request : site_req :=
  SiteReq (Some "http://new.example.org") (Some ["nmap"]) (Some ["C"])
    (Some (VerificationReq (Some true))).

Definition created_view : site_view :=
  SiteView "uuid-0" "http://new.example.org" ["nmap"] 1400000000%Z
    (Some (Verification true (Some "uuid-1"))) ["C"].

(** New plans for the example site, and the record answered. *)
Definition replan_request : site_req :=
  SiteReq None (Some ["nmap"]) None (Some (VerificationReq (Some false))).

Definition replanned_view : site_view :=
  SiteView "b263bdc6" "https://www.mozilla.com" ["nmap"] 1390000000%Z
    (Some (Verification false None)) ["A"; "B"].

(** A database whose groups hold stored sites only. *)
Definition consistent_db : db :=
  Db [mozilla]
     [GroupDoc "A" "" ["https://www.mozilla.com"]; GroupDoc "C" "" []]
     [] [] 0.

(** A regrouping of the example site that leaves [verification] out. *)
Definition regroup_only_request : site_req :=
  SiteReq None None (Some ["B"; "C"]) None.

(** Two lists with the same elements. *)
Definition same_elements (l1 l2 : list string) : Prop :=
  forall n, In n l1 <-> In n l2.

(* ===================================================================== *)
(** * Part II: properties *)
(* ===================================================================== *)

(** ** The matcher computes the declarative reading *)









(** ** Characters and numerals *)






















(** ** Matching the parts of the pattern *)















Lemma forallb_pointwise {A} (f g : A -> bool) l :
  (forall x, f x = g x) -> forallb f l = forallb g l.
Proof. intros E. induction l as [|x l IH]; simpl; [done|]. by rewrite E, IH. Qed.









(** ** The two alternatives of the pattern *)










(** ** The accepted site URLs *)

Example check_site_url_examples :
  _check_site_url (Some "https://www.mozilla.com") = Ret true /\
  _check_site_url (Some "http://localhost:8080") = Ret true /\
  _check_site_url (Some "http://a-b.example.org:80") = Ret true /\
  _check_site_url (Some "192.168.0.0/24") = Ret true /\
  _check_site_url (Some "255.255.255.255/32") = Ret true /\
  _check_site_url (Some "0.0.0.0/0") = Ret true /\
  _check_site_url (Some "256.0.0.1") = Ret false /\
  _check_site_url (Some "1.2.3") = Ret false /\
  _check_site_url (Some "01.2.3.4") = Ret false /\
  _check_site_url (Some "HTTP://www.mozilla.com") = Ret false /\
  _check_site_url (Some "http://-a.example.org") = Ret false /\
  _check_site_url (Some "") = Ret false /\
  _check_site_url None = Raise TypeError.
Proof. by vm_compute. Qed.




(** What follows the host is not looked at: the first alternative of the
    pattern has no [$], so [http://10.0.0.1/33] passes although [/33] is no
    prefix length. *)
Example check_site_url_unanchored :
  _check_site_url (Some "http://10.0.0.1/33") = Ret true /\
  _check_site_url (Some "http://foo.com/any path") = Ret true /\
  spec_site_url "http://10.0.0.1/24" = true /\
  spec_site_url "http://10.0.0.1/33" = false.
Proof. by vm_compute. Qed.

(** ** Collections *)

Example spec_crontab_parser_examples :
  spec_crontab_parser 60 0 "59" = true /\ spec_crontab_parser 60 0 "60" = false /\
  spec_crontab_parser 24 0 "23" = true /\ spec_crontab_parser 24 0 "24" = false /\
  spec_crontab_parser 7 0 "6" = true /\ spec_crontab_parser 7 0 "7" = false /\
  spec_crontab_parser 31 1 "31" = true /\ spec_crontab_parser 31 1 "0" = false /\
  spec_crontab_parser 12 1 "12" = true /\ spec_crontab_parser 12 1 "13" = false /\
  spec_crontab_parser 60 0 "*/5" = true /\ spec_crontab_parser 60 0 "1-3" = true /\
  spec_crontab_parser 60 0 "1,3,5" = true /\ spec_crontab_parser 60 0 "None" = false /\
  spec_crontab_parser 60 0 "" = false /\ spec_crontab_parser 60 0 "1,,2" = false.
Proof. by vm_compute. Qed.

Lemma find_one_insert_doc {A} (q : A -> bool) (d : A) c :
  find_one q c = None -> q d = true -> find_one q (insert_doc d c) = Some d.
Proof.
  unfold find_one, insert_doc. induction c as [|x c IH]; simpl; intros H Hd.
  - by rewrite Hd.
  - destruct (q x); [done|]. by apply IH.
Qed.

Lemma find_one_update_one {A} (q : A -> bool) (u : A -> A) c d0 :
  find_one q c = Some d0 -> q (u d0) = true ->
  find_one q (update_one q u c) = Some (u d0).
Proof.
  unfold find_one. induction c as [|x c IH]; simpl; intros H Hd; [done|].
  destruct (q x) eqn:Hx; simpl.
  - injection H as ->. by rewrite Hd.
  - rewrite Hx. by apply IH.
Qed.

Lemma find_one_Some {A} (q : A -> bool) c d :
  find_one q c = Some d -> q d = true /\ In d c.
Proof.
  unfold find_one. intros H. apply find_some in H. tauto.
Qed.

Lemma find_one_None {A} (q : A -> bool) c :
  find_one q c = None -> forall d, In d c -> q d = false.
Proof. unfold find_one. intros H d Hd. by eapply find_none in H. Qed.

Lemma update_one_None {A} (q : A -> bool) (u : A -> A) c :
  find_one q c = None -> update_one q u c = c.
Proof.
  unfold find_one. induction c as [|x c IH]; simpl; [done|].
  destruct (q x); [done|]. intros H. by rewrite IH.
Qed.

Lemma length_update_one {A} (q : A -> bool) (u : A -> A) c :
  length (update_one q u c) = length c.
Proof.
  induction c as [|x c IH]; simpl; [done|]. destruct (q x); simpl; by rewrite ?IH.
Qed.

Lemma lookup_update_one {A} (q : A -> bool) (u : A -> A) (c : list A) i d :
  c !! i = Some d ->
  exists d', update_one q u c !! i = Some d' /\
             (d' = d \/ (q d = true /\ d' = u d)).
Proof.
  revert i. induction c as [|x c IH]; intros i H; [done|]. simpl.
  destruct (q x) eqn:Hx.
  - destruct i as [|i]; simpl in *.
    + injection H as ->. eauto.
    + eauto.
  - destruct i as [|i]; simpl in *; [eauto|]. by apply IH.
Qed.

Lemma lookup_insert_doc {A} (c : list A) i d x :
  c !! i = Some d -> insert_doc x c !! i = Some d.
Proof. intros H. unfold insert_doc. by apply lookup_app_l_Some. Qed.

Lemma find_one_remove_docs {A} (q : A -> bool) c :
  find_one q (remove_docs q c) = None.
Proof.
  unfold find_one, remove_docs. induction c as [|x c IH]; simpl; [done|].
  destruct (q x) eqn:Hx; simpl; [done|]. by rewrite Hx.
Qed.

Lemma remove_docs_None {A} (q : A -> bool) c :
  find_one q c = None -> remove_docs q c = c.
Proof.
  unfold find_one, remove_docs. induction c as [|x c IH]; simpl; [done|].
  destruct (q x) eqn:Hx; simpl; [done|]. intros H. by rewrite IH.
Qed.


(** Unfold the monad of the views. *)
Ltac run_m :=
  cbv [bind ret raise lift get_db put_db item
       set_sites set_groups set_scanschedules set_siteCredentials].

(** ** Scan schedules *)

Section ScheduleFacts.
Context {ext : Collaborators}.

Lemma check_cron_fields c :
  check_cron c =
  field_error (crontab_parser 60 0 (minute c)) "Error in Value: Minute" ++
  field_error (crontab_parser 24 0 (hour c)) "Error in Value: Hour" ++
  field_error (crontab_parser 7 0 (day_of_week c)) "Error in Value: Day of Week" ++
  field_error (crontab_parser 31 1 (day_of_month c)) "Error in Value: Day of Month" ++
  field_error (crontab_parser 12 1 (month_of_year c)) "Error in Value: Month of Year".
Proof.
  unfold check_cron, field_error.
  by destruct (crontab_parser 60 0 _), (crontab_parser 24 0 _),
    (crontab_parser 7 0 _), (crontab_parser 31 1 _), (crontab_parser 12 1 _).
Qed.

Lemma scanschedule_invalid site s :
  check_cron (request_crontab (q_schedule site)) <> [] ->
  scanschedule site s =
  (s, Ret (CronErrors "Error in crontab values"
             (check_cron (request_crontab (q_schedule site))))).
Proof.
  intros H. unfold scanschedule.
  destruct (dict_get (q_schedule site) "remove");
    by destruct (check_cron (request_crontab (q_schedule site))).
Qed.

Lemma scanschedule_valid site s :
  check_cron (request_crontab (q_schedule site)) = [] ->
  scanschedule site s =
  (Db (sites s) (groups s)
      (match
         find_one (by_target_plan (q_target site) (q_plan site)) (scanschedules s)
       with
       | None => insert_doc (new_descriptor site) (scanschedules s)
       | Some _ =>
           update_one (by_target_plan (q_target site) (q_plan site))
             (set_crontab_enabled (request_crontab (q_schedule site))
                (requested_enabled site))
             (scanschedules s)
       end)
      (siteCredentials s) (uuids s),
   Ret (MessageResp (requested_message site) true)).
Proof.
  intros H. unfold scanschedule, new_descriptor, requested_enabled, requested_message.
  destruct (dict_get (q_schedule site) "remove"); rewrite H;
    run_m; destruct (find_one _ (scanschedules s)); reflexivity.
Qed.
End ScheduleFacts.

Lemma by_target_plan_refl target plan d :
  p_site d = target -> p_plan d = plan -> by_target_plan target plan d = true.
Proof.
  intros <- <-. unfold by_target_plan. by rewrite !String.eqb_refl.
Qed.

Lemma requested_enabled_false site :
  requested_enabled site = false <->
  exists v, q_schedule site !! "remove" = Some v /\ v <> PNone.
Proof.
  unfold requested_enabled, dict_get.
  destruct (q_schedule site !! "remove") as [v|]; simpl.
  - destruct v; split; try done; try (intros _; eexists; split; [done|done]).
    intros (v & [= <-] & NE). done.
  - split; [done|]. by intros (v & ? & _).
Qed.

(** What [scanschedule] stores.  When the crontab fields of a /scanschedule
    request validate, the (site, plan) schedule is stored afterwards with the
    crontab of the request, and its [enabled] flag follows the test
    [removeSite is not None] of the view: it is false exactly when the
    request carries a [remove] value other than null, and true when [remove]
    is absent or null. *)
Lemma scanschedule_enabled_flag `{ext : Collaborators}
    (site : schedule_req) (s : db) :
  check_cron (request_crontab (q_schedule site)) = [] ->
  exists d,
    find_one (by_target_plan (q_target site) (q_plan site))
      (scanschedules (scanschedule site s).1) = Some d /\
    p_crontab d = request_crontab (q_schedule site) /\
    (p_enabled d = false <->
     exists v, q_schedule site !! "remove" = Some v /\ v <> PNone) /\
    (p_enabled d = true <->
     q_schedule site !! "remove" = None \/ q_schedule site !! "remove" = Some PNone).
Proof.
  intros H. rewrite (scanschedule_valid _ _ H). simpl.
  assert (forall d, p_crontab d = request_crontab (q_schedule site) ->
                    p_enabled d = requested_enabled site ->
    p_crontab d = request_crontab (q_schedule site) /\
    (p_enabled d = false <->
     exists v, q_schedule site !! "remove" = Some v /\ v <> PNone) /\
    (p_enabled d = true <->
     q_schedule site !! "remove" = None \/ q_schedule site !! "remove" = Some PNone))
    as Hflag.
  { intros d Hc He. split; [done|]. rewrite He, <- requested_enabled_false.
    split; [done|].
    unfold requested_enabled, dict_get.
    destruct (q_schedule site !! "remove") as [[]|]; simpl;
      (split; [intros E; first [discriminate E | auto]
              | intros [E|E]; first [discriminate E | reflexivity]]). }
  destruct (find_one _ (scanschedules s)) as [d0|] eqn:Hfind.
  - exists (set_crontab_enabled (request_crontab (q_schedule site))
              (requested_enabled site) d0). split.
    + apply find_one_update_one; [exact Hfind|].
      apply find_one_Some in Hfind as [Hq _]. exact Hq.
    + by apply Hflag.
  - exists (new_descriptor site). split.
    + apply find_one_insert_doc; [exact Hfind|]. by apply by_target_plan_refl.
    + by apply Hflag.
Qed.

(** Claim C2 does not hold of the code.  The claim has a valid request
    with [remove: false] leave the schedule enabled.  [scanschedule] tests
    [removeSite is not None], the presence of the flag and not its truth: for
    every database, every request whose crontab fields validate and whose
    schedule carries [remove: false] is answered "Removed Schedule for:
    <target>", and the (site, plan) schedule is stored afterwards with the
    crontab of the request and [enabled = false].  The sibling view
    [setCredentials] reads its own [remove] flag by truth
    ([if authData.get('remove'):]), see [setCredentials_remove_false_keeps]. *)
Theorem scanschedule_remove_false_is_removal `{ext : Collaborators}
    (site : schedule_req) (s : db) :
  check_cron (request_crontab (q_schedule site)) = [] ->
  q_schedule site !! "remove" = Some (PBool false) ->
  (scanschedule site s).2 =
    Ret (MessageResp ("Removed Schedule for: " +:+ q_target site) true) /\
  exists d,
    find_one (by_target_plan (q_target site) (q_plan site))
      (scanschedules (scanschedule site s).1) = Some d /\
    p_crontab d = request_crontab (q_schedule site) /\
    p_enabled d = false.
Proof.
  intros Hvalid Hremove. split.
  - rewrite (scanschedule_valid _ _ Hvalid). simpl.
    unfold requested_message, dict_get. by rewrite Hremove.
  - destruct (scanschedule_enabled_flag site s Hvalid)
      as (d & Hfind & Hcrontab & Hfalse & _).
    exists d. split; [exact Hfind|]. split; [exact Hcrontab|].
    apply Hfalse. exists (PBool false). by split.
Qed.

Lemma scanschedule_remove_false_is_removal_witness :
  @check_cron model_ext (request_crontab (q_schedule keep_request)) = [] /\
  q_schedule keep_request !! "remove" = Some (PBool false) /\
  find_one (by_target_plan "https://www.mozilla.com" "basic")
    (scanschedules scheduled_db) = Some stored_nightly /\
  p_enabled stored_nightly = true /\
  (@scanschedule model_ext keep_request scheduled_db).2 =
    Ret (MessageResp "Removed Schedule for: https://www.mozilla.com" true) /\
  exists d,
    find_one (by_target_plan "https://www.mozilla.com" "basic")
      (scanschedules (@scanschedule model_ext keep_request scheduled_db).1) =
      Some d /\
    p_crontab d = Crontab "*/5" "5" "1-5" "1,15" "*" /\
    p_enabled d = false.
Proof.
  assert (@check_cron model_ext (request_crontab (q_schedule keep_request)) = [])
    as Hvalid by (vm_compute; reflexivity).
  assert (q_schedule keep_request !! "remove" = Some (PBool false))
    as Hremove by (vm_compute; reflexivity).
  destruct (@scanschedule_remove_false_is_removal model_ext keep_request
              scheduled_db Hvalid Hremove) as (Hmessage & d & Hfind & Hcrontab & Hoff).
  split; [exact Hvalid|]. split; [exact Hremove|].
  split; [reflexivity|]. split; [reflexivity|].
  split; [exact Hmessage|].
  exists d. split; [exact Hfind|]. split; [|exact Hoff].
  rewrite Hcrontab. vm_compute. reflexivity.
Defined.

(** The reading of the [remove] flag by truth is not what the code computes:
    a request that validates and carries [remove: false] stores the schedule
    disabled. *)
Lemma scanschedule_remove_false_disables :
  ~ (forall (ext : Collaborators) (site : schedule_req) (s : db),
       check_cron (request_crontab (q_schedule site)) = [] ->
       forall d,
         find_one (by_target_plan (q_target site) (q_plan site))
           (scanschedules (scanschedule site s).1) = Some d ->
         p_enabled d =
         match q_schedule site !! "remove" with
         | Some (PBool true) => false
         | _ => true
         end).
Proof.
  intros H.
  specialize (H model_ext keep_request empty_db).
  assert (@check_cron model_ext (request_crontab (q_schedule keep_request)) = [])
    as Hvalid by (vm_compute; reflexivity).
  specialize (H Hvalid (new_descriptor keep_request)).
  assert (find_one (by_target_plan (q_target keep_request) (q_plan keep_request))
            (scanschedules (@scanschedule model_ext keep_request empty_db).1) =
          Some (new_descriptor keep_request)) as Hfind by (vm_compute; reflexivity).
  specialize (H Hfind). vm_compute in H. discriminate H.
Qed.



Lemma frame_update_one q c e (l : list schedule_doc) i d :
  l !! i = Some d ->
  exists d', update_one q (set_crontab_enabled c e) l !! i = Some d' /\
             descriptor d' = descriptor d /\ (q d = false -> d' = d).
Proof.
  intros H. destruct (lookup_update_one q (set_crontab_enabled c e) _ _ _ H)
    as (d' & Hd' & Hcase).
  exists d'. split; [done|]. destruct Hcase as [->|[Hq ->]]; [done|].
  split; [done|]. congruence.
Qed.

(** Claim C6.  Whatever the /scanschedule request and its outcome, every
    schedule record is still there afterwards, at the same place and with the
    same task identifier, args, site, queue, routing key, exchange, plan and
    name: only its [crontab] and [enabled] can differ, and they differ at
    most for a record of the request's (site, plan).  When a record of that
    (site, plan) is stored already, no record is added.  The other
    collections are not touched. *)
Theorem scanschedule_frame `{ext : Collaborators} (site : schedule_req) (s : db) :
  let s' := (scanschedule site s).1 in
  (forall i d,
     scanschedules s !! i = Some d ->
     exists d',
       scanschedules s' !! i = Some d' /\ descriptor d' = descriptor d /\
       (by_target_plan (q_target site) (q_plan site) d = false -> d' = d)) /\
  (is_Some
     (find_one (by_target_plan (q_target site) (q_plan site)) (scanschedules s)) ->
   length (scanschedules s') = length (scanschedules s)) /\
  sites s' = sites s /\ groups s' = groups s /\
  siteCredentials s' = siteCredentials s /\ uuids s' = uuids s.
Proof.
  destruct (check_cron (request_crontab (q_schedule site))) as [|e errors] eqn:Hc.
  - rewrite (scanschedule_valid _ _ Hc). simpl.
    destruct (find_one _ (scanschedules s)) as [d0|] eqn:Hfind.
    + split; [|split; [by rewrite length_update_one|done]].
      intros i d Hd. by apply frame_update_one.
    + split; [|split; [by intros [? ?]|done]].
      intros i d Hd. exists d. split; [by apply lookup_insert_doc|done].
  - rewrite scanschedule_invalid by (by rewrite Hc). simpl.
    split; [|done]. intros i d Hd. by exists d.
Qed.

Lemma scanschedule_frame_witness :
  scanschedules scheduled_db !! 0 = Some stored_nightly /\
  exists d',
    scanschedules
      (@scanschedule model_ext
         (schedule_request (<["remove" := PBool true]> nightly)) scheduled_db).1
      !! 0 = Some d' /\
    descriptor d' = descriptor stored_nightly /\
    p_enabled d' = false.
Proof.
  split; [reflexivity|].
  destruct (proj1 (@scanschedule_frame model_ext
                     (schedule_request (<["remove" := PBool true]> nightly))
                     scheduled_db) 0 stored_nightly eq_refl)
    as (d' & Hd' & Hdesc & _).
  exists d'. split; [exact Hd'|]. split; [exact Hdesc|].
  vm_compute in Hd'. injection Hd' as <-. reflexivity.
Defined.

(** ** Credentials *)

Lemma truthy_PStr p : truthy (PStr p) = true <-> p <> "".
Proof.
  simpl. rewrite negb_true_iff. destruct (String.eqb_spec p ""); split; congruence.
Qed.

(** One step of the loop of [get_credInfo]. *)
Lemma credInfo_step_masked (acc : gmap string (gmap string cred_doc)) doc :
  (forall site m plan data,
     acc !! site = Some m -> m !! plan = Some data ->
     c_authData data !! "password" = Some (PStr "")) ->
  let data :=
    CredDoc (c_site doc) (c_plan doc) (<["password" := PStr ""]> (c_authData doc)) in
  let acc1 :=
    match acc !! c_site doc with
    | None => <[c_site doc := ∅]> acc
    | Some _ => acc
    end in
  forall site m plan data',
    <[c_site doc := <[c_plan doc := data]> (default ∅ (acc1 !! c_site doc))]> acc1
      !! site = Some m ->
    m !! plan = Some data' ->
    c_authData data' !! "password" = Some (PStr "").
Proof.
  intros IH data acc1 site m plan data' Hm Hdata.
  destruct (decide (c_site doc = site)) as [<-|Hsite].
  - rewrite lookup_insert_eq in Hm. injection Hm as <-.
    destruct (decide (c_plan doc = plan)) as [<-|Hplan].
    + rewrite lookup_insert_eq in Hdata. injection Hdata as <-.
      simpl. apply lookup_insert_eq.
    + rewrite lookup_insert_ne in Hdata by done. subst acc1.
      destruct (acc !! c_site doc) as [m0|] eqn:E.
      * rewrite E in Hdata. simpl in Hdata. by eapply IH.
      * rewrite lookup_insert_eq in Hdata. simpl in Hdata.
        by rewrite lookup_empty in Hdata.
  - rewrite lookup_insert_ne in Hm by done. subst acc1.
    destruct (acc !! c_site doc) eqn:E.
    + by eapply IH.
    + rewrite lookup_insert_ne in Hm by done. by eapply IH.
Qed.

(** Claim C8.  [get_credInfo] always returns a listing, leaves the database
    as it is, and every record of the listing has the empty string as its
    [authData.password], whatever passwords are stored. *)
Theorem get_credInfo_masks_passwords (s : db) :
  exists credInfo,
    get_credInfo s = (s, Ret (CredInfoResp credInfo)) /\
    forall site m plan data,
      credInfo !! site = Some m -> m !! plan = Some data ->
      c_authData data !! "password" = Some (PStr "").
Proof.
  unfold get_credInfo. run_m. eexists. split; [reflexivity|].
  unfold find. generalize (List.filter (fun _ : cred_doc => true) (siteCredentials s)).
  intros l.
  assert (forall site m plan data,
    (∅ : gmap string (gmap string cred_doc)) !! site = Some m ->
    m !! plan = Some data ->
    c_authData data !! "password" = Some (PStr "")) as Hinit.
  { intros site m plan data H. by rewrite lookup_empty in H. }
  revert Hinit. generalize (∅ : gmap string (gmap string cred_doc)).
  induction l as [|doc l IH]; intros acc Hacc; simpl; [exact Hacc|].
  apply IH. by apply credInfo_step_masked.
Qed.

Lemma get_credInfo_masks_passwords_witness :
  exists credInfo m data,
    get_credInfo example_db = (example_db, Ret (CredInfoResp credInfo)) /\
    credInfo !! "https://www.mozilla.com" = Some m /\
    m !! "basic" = Some data /\
    c_authData data !! "password" = Some (PStr "") /\
    c_authData data !! "username" = Some (PStr "admin").
Proof.
  destruct (get_credInfo_masks_passwords example_db) as (credInfo & E & Hmask).
  set (data := CredDoc "https://www.mozilla.com" "basic"
                 {["method" := PStr "basic"; "username" := PStr "admin";
                   "password" := PStr ""]}).
  assert (credInfo !! "https://www.mozilla.com" = Some {["basic" := data]}) as Hsite.
  { assert (get_credInfo example_db =
            (example_db,
             Ret (CredInfoResp {["https://www.mozilla.com" := {["basic" := data]}]})))
      as E' by (vm_compute; reflexivity).
    rewrite E in E'. injection E' as ->. vm_compute. reflexivity. }
  assert (({["basic" := data]} : gmap string cred_doc) !! "basic" = Some data)
    as Hplan by (vm_compute; reflexivity).
  exists credInfo, {["basic" := data]}, data.
  split; [exact E|]. split; [exact Hsite|]. split; [exact Hplan|].
  split; [exact (Hmask _ _ _ _ Hsite Hplan)|]. vm_compute. reflexivity.
Defined.

Lemma by_site_plan_set_authData site plan upd d :
  by_site_plan site plan (set_authData upd d) = by_site_plan site plan d.
Proof. reflexivity. Qed.

Lemma setCredentials_remove (cred_data : cred_req) (s : db) :
  truthy (dict_get (k_authData cred_data) "remove") = true ->
  setCredentials cred_data s =
  (Db (sites s) (groups s) (scanschedules s)
      (remove_docs (by_site_plan (k_site cred_data) (k_plan cred_data))
         (siteCredentials s))
      (uuids s),
   Ret (MessageResp "Removed Site Credentials" true)).
Proof. intros H. unfold setCredentials. rewrite H. reflexivity. Qed.

(** The [$set] document [setCredentials] builds. *)
Lemma setCredentials_update (cred_data : cred_req) (s : db) old :
  truthy (dict_get (k_authData cred_data) "remove") = false ->
  find_one (by_site_plan (k_site cred_data) (k_plan cred_data)) (siteCredentials s)
    = Some old ->
  exists upd : gmap string pyval,
    setCredentials cred_data s =
    (Db (sites s) (groups s) (scanschedules s)
        (update_one (by_site_plan (k_site cred_data) (k_plan cred_data))
           (set_authData upd) (siteCredentials s))
        (uuids s),
     Ret (MessageResp "Added Site Credentials" true)) /\
    (forall k, In k overwritten_fields ->
               upd !! k = Some (dict_get (k_authData cred_data) k)) /\
    (forall k, ~ In k overwritten_fields -> k <> "password" -> upd !! k = None) /\
    upd !! "password" =
      (if truthy (dict_get (k_authData cred_data) "password")
       then Some (dict_get (k_authData cred_data) "password") else None).
Proof.
  intros Hremove Hfind. unfold setCredentials. rewrite Hremove. run_m.
  rewrite Hfind. eexists. split; [reflexivity|].
  set (password := dict_get (k_authData cred_data) "password").
  split; [|split].
  - intros k Hk. unfold overwritten_fields in Hk. simpl in Hk.
    destruct (truthy password);
      repeat (destruct Hk as [<-|Hk]; [by simplify_map_eq|]); done.
  - intros k Hk Hpw.
    destruct (truthy password); [rewrite lookup_insert_ne by done|];
      apply not_elem_of_list_to_map_1; intros Hin; apply Hk;
      apply list_elem_of_In; exact Hin.
  - destruct (truthy password).
    + apply lookup_insert_eq.
    + by simplify_map_eq.
Qed.

(** Claim C7.  A setCredentials request without a truthy [authData.remove],
    on a (site, plan) that has a record, sets each of the fields the view
    lists (all of authData but the password) to the request's value, null
    when the request lacks it; the stored password becomes the request's when
    that is truthy (for a string: non-empty) and stays as it was otherwise.
    A request with a truthy [authData.remove] leaves no record of the
    (site, plan) and reports success, and so does the same request
    repeated. *)
Theorem setCredentials_update_and_remove (cred_data : cred_req) (s : db) :
  let q := by_site_plan (k_site cred_data) (k_plan cred_data) in
  let authData := k_authData cred_data in
  let s' := (setCredentials cred_data s).1 in
  (truthy (dict_get authData "remove") = false ->
   forall old,
     find_one q (siteCredentials s) = Some old ->
     exists new,
       find_one q (siteCredentials s') = Some new /\
       (forall k, In k overwritten_fields ->
                  c_authData new !! k = Some (dict_get authData k)) /\
       c_authData new !! "password" =
         (if truthy (dict_get authData "password")
          then Some (dict_get authData "password")
          else c_authData old !! "password") /\
       (forall p, dict_get authData "password" = PStr p ->
                  (p <> "" -> c_authData new !! "password" = Some (PStr p)) /\
                  (p = "" ->
                   c_authData new !! "password" = c_authData old !! "password")) /\
       (setCredentials cred_data s).2 =
         Ret (MessageResp "Added Site Credentials" true)) /\
  (truthy (dict_get authData "remove") = true ->
   find_one q (siteCredentials s') = None /\
   (setCredentials cred_data s).2 =
     Ret (MessageResp "Removed Site Credentials" true) /\
   setCredentials cred_data s' =
     (s', Ret (MessageResp "Removed Site Credentials" true))).
Proof.
  intros q authData s'. split.
  - intros Hremove old Hfind.
    destruct (setCredentials_update _ _ _ Hremove Hfind) as (upd & E & Hupd & _ & Hpw).
    subst s'. rewrite E. simpl.
    exists (set_authData upd old). split.
    { apply find_one_update_one; [exact Hfind|].
      apply find_one_Some in Hfind as [Hq _]. exact Hq. }
    assert (c_authData (set_authData upd old) !! "password" =
            (if truthy (dict_get authData "password")
             then Some (dict_get authData "password")
             else c_authData old !! "password")) as Hpassword.
    { simpl. fold authData in Hpw. destruct (truthy (dict_get authData "password")).
      - by apply lookup_union_Some_l.
      - by rewrite lookup_union_r. }
    split; [|split; [exact Hpassword|split; [|done]]].
    + intros k Hk. simpl. apply lookup_union_Some_l. by apply Hupd.
    + intros p Hp. rewrite Hpassword, Hp. split; intros Hne.
      * apply truthy_PStr in Hne. by rewrite Hne.
      * by subst p.
  - intros Hremove. subst s'. rewrite (setCredentials_remove _ _ Hremove). simpl.
    split; [apply find_one_remove_docs|]. split; [done|].
    rewrite (setCredentials_remove _ _ Hremove). simpl.
    by rewrite remove_docs_None by apply find_one_remove_docs.
Qed.

Lemma setCredentials_update_and_remove_witness :
  (exists new,
     find_one (by_site_plan "https://www.mozilla.com" "basic")
       (siteCredentials (setCredentials edit_request example_db).1) = Some new /\
     c_authData new !! "username" = Some (PStr "root") /\
     c_authData new !! "email" = Some PNone /\
     c_authData new !! "password" = Some (PStr "s3cret")) /\
  find_one (by_site_plan "https://www.mozilla.com" "basic")
    (siteCredentials (setCredentials remove_request example_db).1) = None /\
  setCredentials remove_request (setCredentials remove_request example_db).1 =
  ((setCredentials remove_request example_db).1,
   Ret (MessageResp "Removed Site Credentials" true)).
Proof.
  split.
  - destruct (proj1 (setCredentials_update_and_remove edit_request example_db)
                eq_refl stored_credential eq_refl)
      as (new & Hnew & Hfields & Hpw & _).
    exists new. split; [exact Hnew|]. split; [|split].
    + rewrite (Hfields "username") by (simpl; tauto). reflexivity.
    + rewrite (Hfields "email") by (simpl; tauto). reflexivity.
    + rewrite Hpw. reflexivity.
  - destruct (proj2 (setCredentials_update_and_remove remove_request example_db)
                eq_refl) as (Hnone & _ & Hagain).
    split; [exact Hnone|exact Hagain].
Defined.

(** [setCredentials] reads its [remove] flag by truth
    ([if authData.get('remove'):]): a request whose [authData] carries
    [remove: false] removes nothing.  It is answered "Added Site Credentials"
    and a credential of its (site, plan) is stored afterwards. *)
Lemma setCredentials_remove_false_keeps (cred_data : cred_req) (s : db) :
  k_authData cred_data !! "remove" = Some (PBool false) ->
  (setCredentials cred_data s).2 = Ret (MessageResp "Added Site Credentials" true) /\
  exists c,
    find_one (by_site_plan (k_site cred_data) (k_plan cred_data))
      (siteCredentials (setCredentials cred_data s).1) = Some c.
Proof.
  intros Hremove.
  assert (truthy (dict_get (k_authData cred_data) "remove") = false) as Hfalsy
    by (unfold dict_get; by rewrite Hremove).
  destruct (find_one (by_site_plan (k_site cred_data) (k_plan cred_data))
              (siteCredentials s)) as [old|] eqn:Hfind.
  - destruct (setCredentials_update _ _ _ Hfalsy Hfind) as (upd & -> & _).
    split; [reflexivity|]. eexists. simpl.
    apply find_one_update_one; [exact Hfind|].
    rewrite by_site_plan_set_authData.
    by apply find_one_Some in Hfind as [Hq _].
  - unfold setCredentials. rewrite Hfalsy. run_m. rewrite Hfind.
    split; [reflexivity|]. eexists. simpl.
    apply find_one_insert_doc; [exact Hfind|].
    unfold by_site_plan. simpl. by rewrite !String.eqb_refl.
Qed.

(** ** Group membership *)

Lemma mem_In x l : mem x l = true <-> In x l.
Proof.
  unfold mem. rewrite existsb_exists. split.
  - intros (y & Hy & E). apply String.eqb_eq in E. by subst.
  - intros H. exists x. by rewrite String.eqb_refl.
Qed.

Lemma mem_cons x y l : mem x (y :: l) = String.eqb x y || mem x l.
Proof. reflexivity. Qed.

Lemma mem_app x l1 l2 : mem x (l1 ++ l2) = mem x l1 || mem x l2.
Proof. unfold mem. apply existsb_app. Qed.

Lemma addToSet_sites_mem url g : mem url (g_sites (addToSet_sites url g)) = true.
Proof.
  simpl. destruct (mem url (g_sites g)) eqn:E; [done|].
  rewrite mem_app, mem_cons, String.eqb_refl. by rewrite orb_true_r.
Qed.

Lemma pull_sites_mem url g : mem url (g_sites (pull_sites url g)) = false.
Proof.
  simpl. apply not_true_is_false. rewrite mem_In, filter_In.
  intros [_ H]. by rewrite String.eqb_refl in H.
Qed.

Lemma addToSet_sites_idemp url g :
  addToSet_sites url (addToSet_sites url g) = addToSet_sites url g.
Proof.
  unfold addToSet_sites at 1. by rewrite addToSet_sites_mem.
Qed.

Lemma pull_sites_idemp url g : pull_sites url (pull_sites url g) = pull_sites url g.
Proof.
  unfold pull_sites. simpl. f_equal.
  induction (g_sites g) as [|u l IH]; simpl; [done|].
  destruct (negb (u =? url)%string) eqn:E; simpl; [|done]. by rewrite E, IH.
Qed.

(** With unique names, [update] on a name is a map over the collection. *)
Lemma update_one_by_name name u (gs : list group_doc) :
  (forall g, g_name (u g) = g_name g) ->
  NoDup (List.map g_name gs) ->
  update_one (by_name name) u gs =
  List.map (fun g => if by_name name g then u g else g) gs.
Proof.
  intros Hu. induction gs as [|g gs IH]; simpl; intros Hnd; [done|].
  apply NoDup_cons in Hnd as [Hg Hnd].
  destruct (by_name name g) eqn:E; [|by rewrite IH].
  f_equal. apply String.eqb_eq in E. clear IH.
  induction gs as [|g' gs IH]; simpl; [done|].
  apply NoDup_cons in Hnd as [_ Hnd].
  destruct (by_name name g') eqn:E'.
  - apply String.eqb_eq in E'. exfalso. apply Hg. simpl. rewrite list_elem_of_In.
    left. congruence.
  - f_equal. apply IH; [|done]. intros H. apply Hg. simpl.
    rewrite list_elem_of_In in *. by right.
Qed.

Lemma map_names_preserved (f : group_doc -> group_doc) gs :
  (forall g, g_name (f g) = g_name g) ->
  List.map g_name (List.map f gs) = List.map g_name gs.
Proof.
  intros H. rewrite List.map_map. apply List.map_ext. exact H.
Qed.

Lemma ret_run {A} (a : A) s : ret a s = (s, Ret a).
Proof. reflexivity. Qed.

Lemma set_groups_run f s : set_groups f s = (with_groups s (f (groups s)), Ret tt).
Proof. reflexivity. Qed.

(** The loop that adds the site to the newly requested groups. *)
Lemma add_new_groups_run url derived requested : forall s,
  exists gs,
    add_new_groups url requested derived s = (with_groups s gs, Ret tt) /\
    (NoDup (List.map g_name (groups s)) ->
     gs = List.map
            (fun g => if mem (g_name g) requested && negb (mem (g_name g) derived)
                      then addToSet_sites url g else g)
            (groups s)).
Proof.
  unfold add_new_groups.
  induction requested as [|x requested IH]; intros s.
  - exists (groups s). split; [by destruct s|].
    intros _. by rewrite List.map_id.
  - cbn [for_each]. unfold bind.
    destruct (mem x derived) eqn:Hx; cbn [negb].
    + rewrite ret_run. destruct (IH s) as (gs & E & Hgs). exists gs.
      split; [exact E|]. intros Hnd. rewrite (Hgs Hnd). apply List.map_ext_in.
      intros g _. rewrite mem_cons.
      destruct (String.eqb_spec (g_name g) x) as [->|_]; [|done].
      by rewrite Hx, !andb_false_r.
    + rewrite set_groups_run.
      destruct (IH (with_groups s
                      (update_one (by_name x) (addToSet_sites url) (groups s))))
        as (gs & E & Hgs).
      exists gs. split; [exact E|]. intros Hnd. simpl in Hgs.
      rewrite update_one_by_name in Hgs by done.
      rewrite Hgs
        by (by rewrite map_names_preserved
              by (by intros g; destruct (by_name x g))).
      rewrite List.map_map. apply List.map_ext_in. intros g _.
      rewrite mem_cons. unfold by_name.
      destruct (String.eqb_spec (g_name g) x) as [E'|_]; [|done].
      rewrite addToSet_sites_idemp, E', Hx. simpl. by destruct (_ && _).
Qed.

(** The loop that pulls the site from the groups not requested any more. *)
Lemma remove_old_groups_run url requested derived : forall s,
  exists gs,
    remove_old_groups url requested derived s = (with_groups s gs, Ret tt) /\
    (NoDup (List.map g_name (groups s)) ->
     gs = List.map
            (fun g => if mem (g_name g) derived && negb (mem (g_name g) requested)
                      then pull_sites url g else g)
            (groups s)).
Proof.
  unfold remove_old_groups.
  induction derived as [|x derived IH]; intros s.
  - exists (groups s). split; [by destruct s|].
    intros _. by rewrite List.map_id.
  - cbn [for_each]. unfold bind.
    destruct (mem x requested) eqn:Hx; cbn [negb].
    + rewrite ret_run. destruct (IH s) as (gs & E & Hgs). exists gs.
      split; [exact E|]. intros Hnd. rewrite (Hgs Hnd). apply List.map_ext_in.
      intros g _. rewrite mem_cons.
      destruct (String.eqb_spec (g_name g) x) as [->|_]; [|done].
      by rewrite Hx, !andb_false_r.
    + rewrite set_groups_run.
      destruct (IH (with_groups s (update_one (by_name x) (pull_sites url) (groups s))))
        as (gs & E & Hgs).
      exists gs. split; [exact E|]. intros Hnd. simpl in Hgs.
      rewrite update_one_by_name in Hgs by done.
      rewrite Hgs
        by (by rewrite map_names_preserved
              by (by intros g; destruct (by_name x g))).
      rewrite List.map_map. apply List.map_ext_in. intros g _.
      rewrite mem_cons. unfold by_name.
      destruct (String.eqb_spec (g_name g) x) as [E'|_]; [|done].
      rewrite pull_sites_idemp, E', Hx. simpl. by destruct (_ && _).
Qed.

(** ** Updating a site *)

Section UpdateSite.
Context {ext : Collaborators}.

(** [update_site] on a request that passes validation, step by step. *)
Lemma update_site_run site_id new_site s site :
  find_one (by_id site_id) (sites s) = Some site ->
  forallb (_check_group_exists s) (default [] (r_groups new_site)) = true ->
  forallb _check_plan_exists (default [] (r_plans new_site)) = true ->
  exists gs,
    match r_groups new_site with
    | None => gs = groups s
    | Some requested =>
        NoDup (List.map g_name (groups s)) ->
        gs = List.map
               (reconciled (s_url site) requested (groups_for_site s (s_url site)))
               (groups s)
    end /\
    let sites1 :=
      match r_plans new_site with
      | Some plans => update_one (by_id site_id) (set_plans plans) (sites s)
      | None => sites s
      end in
    update_site site_id new_site s =
    match r_verification new_site with
    | None =>
        (Db sites1 gs (scanschedules s) (siteCredentials s) (uuids s),
         Raise (KeyError "verification"))
    | Some new_verification =>
        match vr_enabled new_verification with
        | None =>
            (Db sites1 gs (scanschedules s) (siteCredentials s) (uuids s),
             Raise (KeyError "enabled"))
        | Some enabled =>
            let s' :=
              if verification_changed site enabled then
                Db (update_one (by_id site_id)
                      (set_verification
                         (Verification enabled (Some (uuid4 (uuids s)))))
                      sites1)
                   gs (scanschedules s) (siteCredentials s) (S (uuids s))
              else Db sites1 gs (scanschedules s) (siteCredentials s) (uuids s) in
            (s', final_response site_id s')
        end
    end.
Proof.
  intros Hfind Hgroups Hplans.
  assert (exists gs,
    match r_groups new_site with
    | None => gs = groups s
    | Some requested =>
        NoDup (List.map g_name (groups s)) ->
        gs = List.map
               (reconciled (s_url site) requested (groups_for_site s (s_url site)))
               (groups s)
    end /\
    match r_groups new_site with
    | Some requested =>
        do _ <- add_new_groups (s_url site) requested
                  (groups_for_site s (s_url site));
        remove_old_groups (s_url site) requested (groups_for_site s (s_url site))
    | None => ret tt
    end s = (with_groups s gs, Ret tt)) as (gs & Hgs & Eloops).
  { destruct (r_groups new_site) as [requested|]; [|exists (groups s); by destruct s].
    destruct (add_new_groups_run (s_url site) (groups_for_site s (s_url site))
                requested s) as (gs1 & E1 & Hgs1).
    destruct (remove_old_groups_run (s_url site) requested
                (groups_for_site s (s_url site)) (with_groups s gs1))
      as (gs2 & E2 & Hgs2).
    exists gs2. split.
    - intros Hnd. specialize (Hgs1 Hnd). simpl in Hgs2. subst gs1.
      rewrite Hgs2
        by (rewrite map_names_preserved; [done|];
            by intros g; destruct (_ && _)).
      rewrite List.map_map. apply List.map_ext. intros g. unfold reconciled.
      destruct (mem (g_name g) requested) eqn:Hr,
        (mem (g_name g) (groups_for_site s (s_url site))) eqn:Hd; simpl;
        by rewrite ?Hr, ?Hd.
    - unfold bind. by rewrite E1, E2. }
  exists gs. split; [exact Hgs|]. intros sites1.
  subst sites1. unfold update_site, final_response.
  cbv [bind ret groups_for_site] in Eloops.
  cbv [bind ret raise lift get_db put_db item set_sites new_uuid
       _find_groups_for_site groups_for_site verification_changed].
  rewrite Hfind, Hgroups, Hplans. cbn [negb]. rewrite Eloops. unfold with_groups.
  clear Hfind Hgs Eloops.
  destruct (r_plans new_site) as [plans|],
    (r_verification new_site) as [[[enabled|]]|]; try reflexivity;
    destruct (s_verification site) as [old|]; try reflexivity;
    simpl; try destruct (negb (Bool.eqb _ _)); simpl;
    destruct (find_one _ _); reflexivity.
Qed.
End UpdateSite.

Lemma in_find {A} (q : A -> bool) l x : In x (find q l) <-> In x l /\ q x = true.
Proof. apply filter_In. Qed.

Lemma derived_iff_member url (gs : list group_doc) g :
  NoDup (List.map g_name gs) -> In g gs ->
  mem (g_name g) (List.map g_name (find (fun g => mem url (g_sites g)) gs))
  = mem url (g_sites g).
Proof.
  intros Hnd Hg. apply eq_true_iff_eq. rewrite mem_In, in_map_iff. unfold find. split.
  - intros (g' & Hname & Hg'). apply filter_In in Hg' as [Hin Hmem].
    assert (g' = g) as <-; [|done].
    clear Hmem. induction gs as [|x gs IH]; [done|].
    simpl in Hnd. apply NoDup_cons in Hnd as [Hx Hnd].
    rewrite list_elem_of_In, in_map_iff in Hx.
    destruct Hin as [->|Hin], Hg as [->|Hg]; try done.
    + exfalso. apply Hx. by exists g.
    + exfalso. apply Hx. by exists g'.
    + by apply IH.
  - intros Hmem. exists g. split; [done|]. by apply filter_In.
Qed.

Lemma reconciled_name url requested derived g :
  g_name (reconciled url requested derived g) = g_name g.
Proof.
  unfold reconciled.
  by destruct (mem (g_name g) requested), (mem (g_name g) derived).
Qed.

(** After reconciliation a group holds the site exactly when it was asked
    for. *)
Lemma reconciled_member url requested (gs : list group_doc) g :
  NoDup (List.map g_name gs) -> In g gs ->
  let derived := List.map g_name (find (fun g => mem url (g_sites g)) gs) in
  mem url (g_sites (reconciled url requested derived g)) = mem (g_name g) requested.
Proof.
  intros Hnd Hg derived. pose proof (derived_iff_member url gs g Hnd Hg) as Hd.
  fold derived in Hd. unfold reconciled.
  destruct (mem (g_name g) requested), (mem (g_name g) derived); simpl;
    first [by symmetry | apply addToSet_sites_mem | apply pull_sites_mem].
Qed.

Lemma reconciled_groups_for_site url requested (gs : list group_doc) :
  NoDup (List.map g_name gs) ->
  (forall n, In n requested -> existsb (by_name n) gs = true) ->
  let derived := List.map g_name (find (fun g => mem url (g_sites g)) gs) in
  forall n,
    In n (List.map g_name
            (find (fun g => mem url (g_sites g))
               (List.map (reconciled url requested derived) gs)))
    <-> In n requested.
Proof.
  intros Hnd Hex derived n. subst derived.
  rewrite in_map_iff. split.
  - intros (g' & <- & Hg'). apply in_find in Hg' as [Hin Hmem].
    apply in_map_iff in Hin as (g & <- & Hg).
    rewrite reconciled_name. apply mem_In.
    by rewrite <- (reconciled_member url requested gs g Hnd Hg).
  - intros Hn. specialize (Hex n Hn). apply existsb_exists in Hex as (g & Hg & Hname).
    apply String.eqb_eq in Hname. eexists. split.
    + by rewrite reconciled_name.
    + apply in_find. split; [by apply in_map|].
      rewrite (reconciled_member url requested gs g Hnd Hg), Hname. by apply mem_In.
Qed.

Lemma find_one_by_id_update site_id u (l : list site_doc) site :
  (forall d, s_id (u d) = s_id d) ->
  find_one (by_id site_id) l = Some site ->
  find_one (by_id site_id) (update_one (by_id site_id) u l) = Some (u site).
Proof.
  intros Hu Hfind. apply find_one_update_one; [done|].
  apply find_one_Some in Hfind as [Hq _]. unfold by_id in *. by rewrite Hu.
Qed.

Section UpdateSiteClaims.
Context {ext : Collaborators}.

(** The stored record of the site once [update_site] has gone through. *)
Lemma update_site_stored site_id new_site s site new_verification enabled :
  find_one (by_id site_id) (sites s) = Some site ->
  forallb (_check_group_exists s) (default [] (r_groups new_site)) = true ->
  forallb _check_plan_exists (default [] (r_plans new_site)) = true ->
  r_verification new_site = Some new_verification ->
  vr_enabled new_verification = Some enabled ->
  let s' := (update_site site_id new_site s).1 in
  exists site',
    find_one (by_id site_id) (sites s') = Some site' /\
    (update_site site_id new_site s).2 =
      Ret (SiteResp (sanitize_site (site', groups_for_site s' (s_url site')))) /\
    s_id site' = s_id site /\ s_url site' = s_url site /\
    s_plans site' = default (s_plans site) (r_plans new_site) /\
    s_verification site' =
      (if verification_changed site enabled
       then Some (Verification enabled (Some (uuid4 (uuids s))))
       else s_verification site) /\
    uuids s' = (if verification_changed site enabled then S (uuids s) else uuids s) /\
    (r_groups new_site = None -> groups s' = groups s) /\
    (forall requested,
       r_groups new_site = Some requested ->
       NoDup (List.map g_name (groups s)) ->
       groups s' =
       List.map (reconciled (s_url site) requested (groups_for_site s (s_url site)))
         (groups s)).
Proof.
  intros Hfind Hgroups Hplans Hv He s'.
  destruct (update_site_run site_id new_site s site Hfind Hgroups Hplans)
    as (gs & Hgs & E).
  subst s'. rewrite E, Hv, He. clear E.
  set (sites1 := match r_plans new_site with
                 | Some plans => update_one (by_id site_id) (set_plans plans) (sites s)
                 | None => sites s
                 end).
  assert (exists site1,
    find_one (by_id site_id) sites1 = Some site1 /\ s_id site1 = s_id site /\
    s_url site1 = s_url site /\ s_verification site1 = s_verification site /\
    s_plans site1 = default (s_plans site) (r_plans new_site)) as
    (site1 & Hfind1 & Hid1 & Hurl1 & Hver1 & Hplans1).
  { subst sites1. destruct (r_plans new_site) as [plans|].
    - exists (set_plans plans site). split; [|done].
      by apply find_one_by_id_update.
    - by exists site. }
  assert (match r_groups new_site with
          | Some requested =>
              NoDup (List.map g_name (groups s)) ->
              gs = List.map
                     (reconciled (s_url site) requested
                        (groups_for_site s (s_url site))) (groups s)
          | None => gs = groups s
          end ->
          (r_groups new_site = None -> gs = groups s) /\
          (forall requested,
             r_groups new_site = Some requested ->
             NoDup (List.map g_name (groups s)) ->
             gs = List.map
                    (reconciled (s_url site) requested
                       (groups_for_site s (s_url site))) (groups s))) as Hsplit.
  { destruct (r_groups new_site); intros H; split; try done.
    intros requested [= <-]. exact H. }
  apply Hsplit in Hgs. clear Hsplit.
  destruct (verification_changed site enabled); simpl.
  - exists (set_verification (Verification enabled (Some (uuid4 (uuids s)))) site1).
    assert (find_one (by_id site_id)
              (update_one (by_id site_id)
                 (set_verification (Verification enabled (Some (uuid4 (uuids s)))))
                 sites1) =
            Some (set_verification
                    (Verification enabled (Some (uuid4 (uuids s)))) site1)) as Hfind2
      by (by apply find_one_by_id_update).
    unfold final_response. simpl. rewrite Hfind2. simpl. by rewrite Hplans1.
  - exists site1. unfold final_response. simpl. rewrite Hfind1.
    by rewrite Hplans1, Hver1.
Qed.
End UpdateSiteClaims.

Section UpdateSiteOutcomes.
Context {ext : Collaborators}.

(** The three ways [update_site] refuses a request before writing. *)
Lemma update_site_rejects site_id new_site s :
  match find_one (by_id site_id) (sites s) with
  | None => update_site site_id new_site s = (s, Ret (Fail "no-such-site"))
  | Some _ =>
      (forallb (_check_group_exists s) (default [] (r_groups new_site)) = false ->
       update_site site_id new_site s = (s, Ret (Fail "unknown-group"))) /\
      (forallb (_check_group_exists s) (default [] (r_groups new_site)) = true ->
       forallb _check_plan_exists (default [] (r_plans new_site)) = false ->
       update_site site_id new_site s = (s, Ret (Fail "unknown-plan")))
  end.
Proof.
  unfold update_site.
  cbv [bind ret raise lift get_db put_db item set_sites new_uuid _find_groups_for_site].
  destruct (find_one (by_id site_id) (sites s)); [|done]. split.
  - by intros ->.
  - by intros -> ->.
Qed.

(** Claim C5.  When an update that supplies a [groups] list succeeds (so
    all its groups exist) on a group collection with unique names, every
    group record is afterwards as reconciliation leaves it: the site's URL
    added if the group is requested and was not derived, pulled if it was
    derived and is not requested, and the record untouched otherwise, in
    particular when the group is in both lists.  The response carries the
    freshly derived groups, and these are exactly the requested ones. *)
Theorem update_site_groups_reconciled site_id new_site s requested s' view :
  NoDup (List.map g_name (groups s)) ->
  r_groups new_site = Some requested ->
  update_site site_id new_site s = (s', Ret (SiteResp view)) ->
  exists site,
    find_one (by_id site_id) (sites s) = Some site /\
    groups s' =
      List.map (reconciled (s_url site) requested (groups_for_site s (s_url site)))
        (groups s) /\
    (forall g, In g (groups s) ->
               mem (g_name g) requested =
                 mem (g_name g) (groups_for_site s (s_url site)) ->
               In g (groups s')) /\
    sv_groups view = groups_for_site s' (s_url site) /\
    (forall n, In n (sv_groups view) <-> In n requested).
Proof.
  intros Hnd Hreq E. pose proof (update_site_rejects site_id new_site s) as Hrej.
  destruct (find_one (by_id site_id) (sites s)) as [site|] eqn:Hfind;
    [|by rewrite Hrej in E].
  destruct Hrej as [Hg Hp].
  destruct (forallb (_check_group_exists s) (default [] (r_groups new_site)))
    eqn:Hgroups; [|by rewrite Hg in E].
  destruct (forallb _check_plan_exists (default [] (r_plans new_site)))
    eqn:Hplans; [|by rewrite Hp in E].
  clear Hg Hp.
  destruct (r_verification new_site) as [[[enabled|]]|] eqn:Hv.
  2,3: destruct (update_site_run site_id new_site s site Hfind Hgroups Hplans)
      as (gs & _ & E'); rewrite E', Hv in E; discriminate E.
  destruct (update_site_stored site_id new_site s site _ enabled
              Hfind Hgroups Hplans Hv eq_refl)
    as (site' & Hfind' & Hresp & _ & Hurl & _ & _ & _ & _ & Hgs).
  rewrite E in Hfind', Hresp, Hgs. simpl in Hfind', Hresp, Hgs.
  injection Hresp as ->. specialize (Hgs requested Hreq Hnd).
  exists site. split; [done|]. split; [exact Hgs|].
  assert (forall n, In n (groups_for_site s' (s_url site)) <-> In n requested) as Hiff.
  { intros n. unfold groups_for_site at 1. rewrite Hgs.
    apply reconciled_groups_for_site; [done|].
    intros m Hm. rewrite Hreq in Hgroups. simpl in Hgroups.
    rewrite forallb_forall in Hgroups. by apply Hgroups. }
  split; [|split; [by simpl; rewrite Hurl|by simpl; rewrite Hurl]].
  intros g Hg Hsame. rewrite Hgs. apply in_map_iff. exists g. split; [|done].
  unfold reconciled. rewrite Hsame.
  by destruct (mem (g_name g) (groups_for_site s (s_url site))).
Qed.

(** Claim C9, as amended.  For an update of an existing site that carries
    a [verification] object with an [enabled] flag and whose groups and
    plans all exist: when the stored record has no verification, or its
    stored flag differs from the requested one, the stored verification
    becomes the requested flag with the next UUID drawn as its value (also
    when the request disables verification); when the stored flag equals
    the requested one, the stored verification, token included, stays as
    it was and no UUID is drawn. *)
Theorem update_site_verification site_id new_site s site new_verification enabled :
  find_one (by_id site_id) (sites s) = Some site ->
  forallb (_check_group_exists s) (default [] (r_groups new_site)) = true ->
  forallb _check_plan_exists (default [] (r_plans new_site)) = true ->
  r_verification new_site = Some new_verification ->
  vr_enabled new_verification = Some enabled ->
  let s' := (update_site site_id new_site s).1 in
  exists site',
    find_one (by_id site_id) (sites s') = Some site' /\
    (s_verification site = None \/
     (exists old, s_verification site = Some old /\ v_enabled old <> enabled) ->
     s_verification site' = Some (Verification enabled (Some (uuid4 (uuids s)))) /\
     uuids s' = S (uuids s)) /\
    (forall old,
       s_verification site = Some old -> v_enabled old = enabled ->
       s_verification site' = Some old /\ uuids s' = uuids s).
Proof.
  intros Hfind Hgroups Hplans Hv He s'.
  destruct (update_site_stored site_id new_site s site _ enabled
              Hfind Hgroups Hplans Hv He)
    as (site' & Hfind' & _ & _ & _ & _ & Hver & Huuids & _).
  exists site'. split; [exact Hfind'|]. fold s' in Huuids.
  rewrite Hver, Huuids. unfold verification_changed. split.
  - intros [-> | (old & -> & Hne)]; [done|].
    by destruct (v_enabled old), enabled.
  - intros old -> <-. by rewrite Bool.eqb_reflx.
Qed.

(** Claim C10, as amended.  An update of an existing site whose body has
    no [verification] key, and whose groups and plans all exist, raises
    [KeyError] on that key; the group and plan writes of the request have
    been made by then. *)
Theorem update_site_without_verification site_id new_site s site :
  find_one (by_id site_id) (sites s) = Some site ->
  forallb (_check_group_exists s) (default [] (r_groups new_site)) = true ->
  forallb _check_plan_exists (default [] (r_plans new_site)) = true ->
  r_verification new_site = None ->
  (update_site site_id new_site s).2 = Raise (KeyError "verification") /\
  sites (update_site site_id new_site s).1 =
    match r_plans new_site with
    | Some plans => update_one (by_id site_id) (set_plans plans) (sites s)
    | None => sites s
    end.
Proof.
  intros Hfind Hgroups Hplans Hv.
  destruct (update_site_run site_id new_site s site Hfind Hgroups Hplans)
    as (gs & _ & E).
  by rewrite E, Hv.
Qed.

(** Claim C3, on the code: with no [url] in the body, [create_site] raises
    [TypeError] from the URL check, before the required-field check is
    reached; nothing is stored. *)
Theorem create_site_without_url site s :
  r_url site = None ->
  create_site site s = (s, Raise TypeError).
Proof. intros H. unfold create_site. by rewrite H. Qed.
End UpdateSiteOutcomes.

Lemma for_each_set_groups {A} (f : A -> list group_doc -> list group_doc) l : forall s,
  exists gs, for_each l (fun x => set_groups (f x)) s = (with_groups s gs, Ret tt).
Proof.
  induction l as [|x l IH]; intros s.
  - exists (groups s). by destruct s.
  - cbn [for_each]. unfold bind. rewrite set_groups_run.
    destruct (IH (with_groups s (f x (groups s)))) as (gs & E). by exists gs.
Qed.

(** The [missing-required-field] answer of [create_site] is dead code: as
    soon as the required-field helper accepts every request that has a
    [url], no request is answered with it. *)
Lemma create_site_never_missing_required_field `{ext : Collaborators} site s :
  (forall url, r_url site = Some url -> _check_required_fields site ["url"] = true) ->
  (create_site site s).2 <> Ret (Fail "missing-required-field").
Proof.
  intros Hreq. unfold create_site.
  destruct (r_url site) as [url|] eqn:Hurl; [|done].
  rewrite (Hreq url eq_refl).
  cbv [bind ret raise lift get_db put_db item set_sites new_uuid _check_site_url].
  destruct (re_match site_url_regex url); [|done]. cbn [negb].
  destruct (forallb (_check_group_exists s) _); [|done]. cbn [negb].
  destruct (forallb _check_plan_exists _); [|done]. cbn [negb].
  destruct (find_one (by_url url) (sites s)); [done|].
  destruct (r_verification site) as [[[[]|]]|];
    match goal with
    | |- context [for_each ?l (fun g => set_groups (@?f g)) ?s0] =>
        destruct (for_each_set_groups f l s0) as (gs & ->)
    end; done.
Qed.

(** ** The claims on the example site *)

Lemma example_groups_NoDup : NoDup (List.map g_name (groups example_db)).
Proof.
  simpl.
  repeat (apply NoDup_cons; split;
          [rewrite list_elem_of_In; simpl; intuition discriminate|]).
  apply NoDup_nil. done.
Defined.

Lemma update_site_groups_reconciled_witness :
  @update_site model_ext "b263bdc6" regroup_request example_db =
    (regrouped_db, Ret (SiteResp regrouped_view)) /\
  groups_for_site example_db "https://www.mozilla.com" = ["A"; "B"] /\
  groups_for_site regrouped_db "https://www.mozilla.com" = ["B"; "C"] /\
  forall n, In n (sv_groups regrouped_view) <-> In n ["B"; "C"].
Proof.
  assert (@update_site model_ext "b263bdc6" regroup_request example_db =
          (regrouped_db, Ret (SiteResp regrouped_view))) as E
    by (vm_compute; reflexivity).
  split; [exact E|]. split; [reflexivity|]. split; [reflexivity|].
  destruct (@update_site_groups_reconciled model_ext "b263bdc6" regroup_request
              example_db ["B"; "C"] regrouped_db regrouped_view
              example_groups_NoDup eq_refl E)
    as (site & _ & _ & _ & _ & Hiff).
  exact Hiff.
Defined.

Lemma update_site_verification_witness :
  exists site',
    find_one (by_id "b263bdc6")
      (sites (@update_site model_ext "b263bdc6" enable_request example_db).1)
      = Some site' /\
    s_verification site' = Some (Verification true (Some "uuid-0")) /\
    uuids (@update_site model_ext "b263bdc6" enable_request example_db).1 = 1.
Proof.
  destruct (@update_site_verification model_ext "b263bdc6" enable_request example_db
              mozilla (VerificationReq (Some true)) true
              eq_refl eq_refl eq_refl eq_refl eq_refl)
    as (site' & Hfind & Hchanged & _).
  exists site'. split; [exact Hfind|].
  apply Hchanged. right. exists (Verification false None). split; [reflexivity|].
  discriminate.
Defined.

(** Claim C9 as the specification states it fails: the request asks to
    enable verification on a site that has it disabled, but names a group
    that does not exist; it is refused with [unknown-group], and the stored
    verification is not regenerated. *)
Lemma update_site_verification_not_reached :
  ~ (forall (ext : Collaborators) site_id new_site s site new_verification enabled,
       find_one (by_id site_id) (sites s) = Some site ->
       r_verification new_site = Some new_verification ->
       vr_enabled new_verification = Some enabled ->
       (s_verification site = None \/
        exists old, s_verification site = Some old /\ v_enabled old <> enabled) ->
       exists site',
         find_one (by_id site_id) (sites (update_site site_id new_site s).1)
           = Some site' /\
         s_verification site' =
           Some (Verification enabled (Some (uuid4 (uuids s))))).
Proof.
  intros H.
  destruct (H model_ext "b263bdc6" enable_ghost_request example_db mozilla
              (VerificationReq (Some true)) true eq_refl eq_refl eq_refl)
    as (site' & Hfind & Hver).
  { right. exists (Verification false None). split; [reflexivity|discriminate]. }
  vm_compute in Hfind. injection Hfind as <-. discriminate Hver.
Qed.

Lemma update_site_without_verification_witness :
  (@update_site model_ext "b263bdc6" plans_only_request example_db).2 =
    Raise (KeyError "verification") /\
  sites (@update_site model_ext "b263bdc6" plans_only_request example_db).1 =
    [set_plans ["nmap"] mozilla].
Proof.
  apply (@update_site_without_verification model_ext "b263bdc6" plans_only_request
           example_db mozilla eq_refl eq_refl eq_refl eq_refl).
Defined.

(** Claim C10 as the specification states it fails: an update without
    [verification] that names a group that does not exist gets the
    structured [unknown-group] response, not an exception. *)
Lemma update_site_without_verification_refused :
  ~ (forall (ext : Collaborators) site_id new_site s site,
       find_one (by_id site_id) (sites s) = Some site ->
       r_verification new_site = None ->
       exists e, (update_site site_id new_site s).2 = Raise e).
Proof.
  intros H.
  destruct (H model_ext "b263bdc6" ghost_only_request example_db mozilla
              eq_refl eq_refl) as (e & He).
  vm_compute in He. discriminate He.
Qed.

Example update_site_unknown_group :
  @update_site model_ext "b263bdc6" ghost_only_request example_db =
  (example_db, Ret (Fail "unknown-group")).
Proof. vm_compute. reflexivity. Qed.

Lemma create_site_without_url_witness :
  r_url no_url_request = None /\
  @create_site model_ext no_url_request example_db = (example_db, Raise TypeError).
Proof.
  split; [reflexivity|].
  apply (@create_site_without_url model_ext no_url_request example_db eq_refl).
Defined.

(** With a URL the required-field check holds, so no request at all is
    answered [missing-required-field]. *)
Example create_site_examples :
  (@create_site model_ext (SiteReq (Some "http://foo") None None None) example_db).2 =
    Ret (Fail "invalid-url") /\
  (@create_site model_ext
     (SiteReq (Some "https://www.mozilla.com") None None None) example_db).2 =
    Ret (Fail "site-already-exists") /\
  (@create_site model_ext
     (SiteReq (Some "http://new.example.org") (Some ["nmap"]) (Some ["C"])
        (Some (VerificationReq (Some true)))) example_db).2 =
    Ret (SiteResp
           (SiteView "uuid-0" "http://new.example.org" ["nmap"] 1400000000%Z
              (Some (Verification true (Some "uuid-1"))) ["C"])).
Proof. vm_compute. done. Qed.

(* ===================================================================== *)
(** * Part II, continued: further properties of the views *)
(* ===================================================================== *)

(** ** [_check_site_url], in full *)



(** ** [check_cron] *)

Lemma field_error_sublist ok text : sublist (field_error ok text) [text].
Proof. destruct ok; simpl; [apply sublist_nil_l|done]. Qed.

(** X2.  [check_cron] returns no error exactly when the parser accepts all
    five fields; otherwise its errors are some of the five messages, each at
    most once and in the order minute, hour, day of week, day of month, month
    of year. *)
Theorem check_cron_errors `{ext : Collaborators} (c : crontab) :
  (check_cron c = [] <->
   crontab_parser 60 0 (minute c) = true /\ crontab_parser 24 0 (hour c) = true /\
   crontab_parser 7 0 (day_of_week c) = true /\
   crontab_parser 31 1 (day_of_month c) = true /\
   crontab_parser 12 1 (month_of_year c) = true) /\
  sublist (check_cron c) cron_messages.
Proof.
  rewrite check_cron_fields. split.
  - destruct (crontab_parser 60 0 _), (crontab_parser 24 0 _),
      (crontab_parser 7 0 _), (crontab_parser 31 1 _), (crontab_parser 12 1 _);
      simpl; split; try done; intros (? & ? & ? & ? & ?); done.
  - unfold cron_messages.
    change ["Error in Value: Minute"; "Error in Value: Hour";
            "Error in Value: Day of Week"; "Error in Value: Day of Month";
            "Error in Value: Month of Year"]
      with (["Error in Value: Minute"] ++ ["Error in Value: Hour"] ++
            ["Error in Value: Day of Week"] ++ ["Error in Value: Day of Month"] ++
            ["Error in Value: Month of Year"]).
    repeat apply sublist_app; apply field_error_sublist.
Qed.

(** ** Running the site views *)

Lemma get_site_run site_id s : get_site site_id s = (s, final_response site_id s).
Proof.
  unfold get_site, final_response.
  cbv [bind ret get_db _find_groups_for_site groups_for_site].
  by destruct (find_one (by_id site_id) (sites s)).
Qed.

Lemma map_m_read {A B} (f : A -> M B) (g : db -> A -> B) l s :
  (forall x s, f x s = (s, Ret (g s x))) ->
  map_m f l s = (s, Ret (List.map (g s) l)).
Proof.
  intros Hf. induction l as [|x l IH]; [done|].
  cbn [map_m]. unfold bind. rewrite Hf, IH. reflexivity.
Qed.

(** The record of a site as the reading views show it. *)
Lemma get_sites_run url s :
  get_sites url s =
  (s, Ret (SitesResp
             (List.map (fun site => sanitize_site (site, groups_for_site s (s_url site)))
                (find
                   match url with
                   | Some u => if negb (u =? "")%string then by_url u else fun _ => true
                   | None => fun _ => true
                   end (sites s))))).
Proof.
  unfold get_sites. unfold bind at 1. unfold get_db at 1. unfold bind at 1.
  by rewrite (map_m_read _
                (fun s site => sanitize_site (site, groups_for_site s (s_url site)))).
Qed.

Lemma add_site_to_groups_run url requested : forall s,
  for_each requested
    (fun group_name =>
       set_groups (update_one (by_name group_name) (addToSet_sites url))) s =
  (with_groups s (add_site_to_groups url requested (groups s)), Ret tt).
Proof.
  unfold add_site_to_groups.
  induction requested as [|n requested IH]; intros s; [by destruct s|].
  cbn [for_each fold_left]. unfold bind. by rewrite set_groups_run, IH.
Qed.

Lemma add_new_groups_fold url derived requested : forall s,
  add_new_groups url requested derived s =
  (with_groups s (fold_left (add_step url derived) requested (groups s)), Ret tt).
Proof.
  unfold add_new_groups.
  induction requested as [|n requested IH]; intros s; [by destruct s|].
  cbn [for_each fold_left]. unfold bind, add_step at 2.
  destruct (negb (mem n derived)).
  - by rewrite set_groups_run, IH.
  - rewrite ret_run, IH. by destruct s.
Qed.

Lemma remove_old_groups_fold url requested derived : forall s,
  remove_old_groups url requested derived s =
  (with_groups s (fold_left (remove_step url requested) derived (groups s)), Ret tt).
Proof.
  unfold remove_old_groups.
  induction derived as [|n derived IH]; intros s; [by destruct s|].
  cbn [for_each fold_left]. unfold bind, remove_step at 2.
  destruct (negb (mem n requested)).
  - by rewrite set_groups_run, IH.
  - rewrite ret_run, IH. by destruct s.
Qed.

Section SiteRuns.
Context {ext : Collaborators}.

(** [update_site] past its validation, with the group collection it
    leaves. *)
Lemma update_site_steps site_id new_site s site :
  find_one (by_id site_id) (sites s) = Some site ->
  forallb (_check_group_exists s) (default [] (r_groups new_site)) = true ->
  forallb _check_plan_exists (default [] (r_plans new_site)) = true ->
  let gs := groups_after_update site new_site s in
  let sites1 :=
    match r_plans new_site with
    | Some plans => update_one (by_id site_id) (set_plans plans) (sites s)
    | None => sites s
    end in
  update_site site_id new_site s =
  match r_verification new_site with
  | None =>
      (Db sites1 gs (scanschedules s) (siteCredentials s) (uuids s),
       Raise (KeyError "verification"))
  | Some new_verification =>
      match vr_enabled new_verification with
      | None =>
          (Db sites1 gs (scanschedules s) (siteCredentials s) (uuids s),
           Raise (KeyError "enabled"))
      | Some enabled =>
          let s' :=
            if verification_changed site enabled then
              Db (update_one (by_id site_id)
                    (set_verification
                       (Verification enabled (Some (uuid4 (uuids s)))))
                    sites1)
                 gs (scanschedules s) (siteCredentials s) (S (uuids s))
            else Db sites1 gs (scanschedules s) (siteCredentials s) (uuids s) in
          (s', final_response site_id s')
      end
  end.
Proof.
  intros Hfind Hgroups Hplans gs sites1.
  assert (match r_groups new_site with
          | Some requested =>
              do _ <- add_new_groups (s_url site) requested
                        (groups_for_site s (s_url site));
              remove_old_groups (s_url site) requested (groups_for_site s (s_url site))
          | None => ret tt
          end s = (with_groups s gs, Ret tt)) as Eloops.
  { subst gs. unfold groups_after_update.
    destruct (r_groups new_site) as [requested|]; [|by destruct s].
    unfold bind. by rewrite add_new_groups_fold, remove_old_groups_fold. }
  subst sites1. unfold update_site, final_response.
  cbv [bind ret groups_for_site] in Eloops.
  cbv [bind ret raise lift get_db put_db item set_sites new_uuid
       _find_groups_for_site groups_for_site verification_changed].
  rewrite Hfind, Hgroups, Hplans. cbn [negb]. rewrite Eloops. unfold with_groups.
  clear Hfind Eloops.
  destruct (r_plans new_site) as [plans|],
    (r_verification new_site) as [[[enabled|]]|]; try reflexivity;
    destruct (s_verification site) as [old|]; try reflexivity;
    simpl; try destruct (negb (Bool.eqb _ _)); simpl;
    destruct (find_one _ _); reflexivity.
Qed.

(** [create_site] past its checks. *)
Lemma create_site_steps site s url :
  r_url site = Some url ->
  re_match site_url_regex url = true ->
  _check_required_fields site ["url"] = true ->
  forallb (_check_group_exists s) (default [] (r_groups site)) = true ->
  forallb _check_plan_exists (default [] (r_plans site)) = true ->
  find_one (by_url url) (sites s) = None ->
  create_site site s =
  (Db (insert_doc (created_site site url s) (sites s))
      (add_site_to_groups url (default [] (r_groups site)) (groups s))
      (scanschedules s) (siteCredentials s)
      (if wants_verification site then S (S (uuids s)) else S (uuids s)),
   Ret (SiteResp (sanitize_site (created_site site url s, default [] (r_groups site))))).
Proof.
  intros Hurl Hvalid Hreq Hgroups Hplans Hfind.
  unfold create_site, created_site, wants_verification. rewrite Hurl, Hreq.
  cbv [bind ret raise lift get_db put_db item set_sites new_uuid _check_site_url].
  rewrite Hvalid. cbn [negb]. rewrite Hgroups. cbn [negb].
  rewrite Hplans. cbn [negb]. rewrite Hfind.
  destruct (r_verification site) as [[[[]|]]|]; cbv iota beta;
    rewrite add_site_to_groups_run; reflexivity.
Qed.

(** [create_site] answers a request it does not carry out without having
    written. *)
Lemma create_site_refusals site s :
  match r_url site with
  | None => create_site site s = (s, Raise TypeError)
  | Some url =>
      if negb (re_match site_url_regex url) then
        create_site site s = (s, Ret (Fail "invalid-url"))
      else if negb (_check_required_fields site ["url"]) then
        create_site site s = (s, Ret (Fail "missing-required-field"))
      else if negb (forallb (_check_group_exists s) (default [] (r_groups site))) then
        create_site site s = (s, Ret (Fail "unknown-group"))
      else if negb (forallb _check_plan_exists (default [] (r_plans site))) then
        create_site site s = (s, Ret (Fail "unknown-plan"))
      else
        match find_one (by_url url) (sites s) with
        | Some _ => create_site site s = (s, Ret (Fail "site-already-exists"))
        | None => True
        end
  end.
Proof.
  unfold create_site. destruct (r_url site) as [url|]; [|done].
  cbv [bind ret raise lift get_db put_db item set_sites new_uuid _check_site_url].
  destruct (re_match site_url_regex url); [|done]. cbn [negb].
  destruct (_check_required_fields site ["url"]); [|done]. cbn [negb].
  destruct (forallb (_check_group_exists s) _); [|done]. cbn [negb].
  destruct (forallb _check_plan_exists _); [|done]. cbn [negb].
  by destruct (find_one (by_url url) (sites s)).
Qed.
End SiteRuns.

(** ** Updates of one document *)

Lemma map_update_one {A B} (f : A -> B) q u (l : list A) :
  (forall x, f (u x) = f x) -> List.map f (update_one q u l) = List.map f l.
Proof.
  intros Hf. induction l as [|x l IH]; simpl; [done|].
  destruct (q x); simpl; by rewrite ?Hf, ?IH.
Qed.

Lemma in_update_one {A} q u (l : list A) x :
  In x (update_one q u l) -> exists x0, In x0 l /\ (x = x0 \/ x = u x0).
Proof.
  induction l as [|y l IH]; simpl; [done|]. destruct (q y); simpl.
  - intros [<-|H]; eauto.
  - intros [<-|H]; [eauto|]. destruct (IH H) as (x0 & ? & ?). eauto.
Qed.

Lemma in_update_one_other {A} q u (l : list A) x :
  q x = false -> (In x (update_one q u l) <-> In x l) \/ exists x0, In x0 l /\ q x0 = true.
Proof.
  intros Hx. induction l as [|y l IH]; simpl; [by left|].
  destruct (q y) eqn:Hy; [right; eauto|].
  destruct IH as [IH|(x0 & ? & ?)]; [left; simpl; by rewrite IH|right; eauto].
Qed.

Lemma update_one_keeps {A} q u (l : list A) x :
  q x = false -> In x l -> In x (update_one q u l).
Proof.
  intros Hx. induction l as [|y l IH]; simpl; [done|].
  intros [->|H]; [rewrite Hx; by left|]. destruct (q y); simpl; auto.
Qed.

Lemma update_one_fixed {A} q u (l : list A) :
  (forall x, In x l -> q x = true -> u x = x) -> update_one q u l = l.
Proof.
  induction l as [|y l IH]; simpl; intros H; [done|].
  destruct (q y) eqn:Hy; [by rewrite H by auto|]. rewrite IH; auto.
Qed.

Lemma fold_left_invariant {A B} (P : A -> Prop) (step : A -> B -> A) l : forall a,
  (forall a x, P a -> P (step a x)) -> P a -> P (fold_left step l a).
Proof.
  induction l as [|x l IH]; simpl; intros a Hstep Ha; [done|]. apply IH; auto.
Qed.

Lemma addToSet_sites_members url g u :
  In u (g_sites (addToSet_sites url g)) -> In u (g_sites g) \/ u = url.
Proof.
  simpl. destruct (mem url (g_sites g)); [auto|].
  rewrite in_app_iff. simpl. intuition.
Qed.

Lemma pull_sites_members url g u :
  In u (g_sites (pull_sites url g)) -> In u (g_sites g).
Proof. simpl. rewrite filter_In. tauto. Qed.

(** ** What the group loops keep *)

Lemma add_site_to_groups_keeps {B} (f : group_doc -> B) url requested gs :
  (forall g, f (addToSet_sites url g) = f g) ->
  List.map f (add_site_to_groups url requested gs) = List.map f gs.
Proof.
  intros Hf. unfold add_site_to_groups.
  apply (fold_left_invariant (fun gs' => List.map f gs' = List.map f gs)); [|done].
  intros a n <-. by apply map_update_one.
Qed.

Lemma groups_after_update_keeps {B} (f : group_doc -> B) site new_site s :
  (forall url g, f (addToSet_sites url g) = f g) ->
  (forall url g, f (pull_sites url g) = f g) ->
  List.map f (groups_after_update site new_site s) = List.map f (groups s).
Proof.
  intros Hadd Hpull. unfold groups_after_update.
  destruct (r_groups new_site) as [requested|]; [|done].
  apply (fold_left_invariant (fun gs' => List.map f gs' = List.map f (groups s))).
  - intros a n <-. unfold remove_step. destruct (negb _); [|done].
    by apply map_update_one.
  - apply (fold_left_invariant (fun gs' => List.map f gs' = List.map f (groups s)));
      [|done].
    intros a n <-. unfold add_step. destruct (negb _); [|done].
    by apply map_update_one.
Qed.

(** Members after the loops were members before, or are the site itself. *)
Lemma add_site_to_groups_members url requested gs g u :
  In g (add_site_to_groups url requested gs) -> In u (g_sites g) ->
  u = url \/ exists g0, In g0 gs /\ In u (g_sites g0).
Proof.
  unfold add_site_to_groups. revert g u.
  apply (fold_left_invariant
           (fun gs' => forall g u, In g gs' -> In u (g_sites g) ->
                                   u = url \/ exists g0, In g0 gs /\ In u (g_sites g0))).
  - intros a n IH g u Hg Hu.
    apply in_update_one in Hg as (g0 & Hg0 & [->| ->]); [by eapply IH|].
    apply addToSet_sites_members in Hu as [Hu|Hu]; [by eapply IH|by left].
  - intros g u Hg Hu. right. eauto.
Qed.

Lemma groups_after_update_members site new_site s g u :
  In g (groups_after_update site new_site s) -> In u (g_sites g) ->
  u = s_url site \/ exists g0, In g0 (groups s) /\ In u (g_sites g0).
Proof.
  unfold groups_after_update. destruct (r_groups new_site) as [requested|];
    [|intros; right; eauto].
  revert g u.
  apply (fold_left_invariant
           (fun gs' => forall g u, In g gs' -> In u (g_sites g) ->
              u = s_url site \/ exists g0, In g0 (groups s) /\ In u (g_sites g0))).
  - intros a n IH g u Hg Hu. unfold remove_step in Hg.
    destruct (negb _); [|by eapply IH].
    apply in_update_one in Hg as (g0 & Hg0 & [->| ->]); [by eapply IH|].
    apply pull_sites_members in Hu. by eapply IH.
  - apply (fold_left_invariant
           (fun gs' => forall g u, In g gs' -> In u (g_sites g) ->
              u = s_url site \/ exists g0, In g0 (groups s) /\ In u (g_sites g0))).
    + intros a n IH g u Hg Hu. unfold add_step in Hg.
      destruct (negb _); [|by eapply IH].
      apply in_update_one in Hg as (g0 & Hg0 & [->| ->]); [by eapply IH|].
      apply addToSet_sites_members in Hu as [Hu|Hu]; [by eapply IH|by left].
    + intros g u Hg Hu. right. eauto.
Qed.

(** One [$addToSet] on an existing group adds its name to the groups that
    hold the site, and nothing else. *)
Lemma groups_holding_addToSet url n gs m :
  existsb (by_name n) gs = true ->
  In m (groups_holding url (update_one (by_name n) (addToSet_sites url) gs)) <->
  m = n \/ In m (groups_holding url gs).
Proof.
  unfold groups_holding, find.
  induction gs as [|g gs IH]; simpl; [done|]. intros Hex.
  destruct (by_name n g) eqn:Hn; simpl.
  - apply String.eqb_eq in Hn.
    change (g_sites (addToSet_sites url g))
      with (if mem url (g_sites g) then g_sites g else g_sites g ++ [url]).
    pose proof (addToSet_sites_mem url g) as Hmem. simpl in Hmem. rewrite Hmem.
    simpl. destruct (mem url (g_sites g)); simpl; rewrite Hn; intuition.
  - simpl in Hex. destruct (mem url (g_sites g)); simpl; rewrite IH by done; intuition.
Qed.

Lemma groups_holding_add_site url requested : forall gs m,
  (forall n, In n requested -> existsb (by_name n) gs = true) ->
  In m (groups_holding url (add_site_to_groups url requested gs)) <->
  In m requested \/ In m (groups_holding url gs).
Proof.
  unfold add_site_to_groups.
  induction requested as [|n requested IH]; intros gs m Hex; simpl; [tauto|].
  rewrite IH.
  - rewrite groups_holding_addToSet by (apply Hex; by left). intuition.
  - intros k Hk. specialize (Hex k (or_intror Hk)).
    rewrite existsb_exists in *. destruct Hex as (g & Hg & Hname).
    assert (In k (List.map g_name gs)) as Hin.
    { apply in_map_iff. exists g. split; [|done]. by apply String.eqb_eq in Hname. }
    rewrite <- (map_update_one g_name (by_name n) (addToSet_sites url) gs) in Hin by done.
    apply in_map_iff in Hin as (g' & Hname' & Hg'). exists g'. split; [done|].
    unfold by_name. rewrite Hname'. apply String.eqb_refl.
Qed.

(** ** Reading sites *)

Lemma filter_map_views (p : site_view -> bool) (f : site_doc -> site_view) l :
  List.filter p (List.map f l) = List.map f (List.filter (fun d => p (f d)) l).
Proof.
  induction l as [|d l IH]; simpl; [done|]. destruct (p (f d)); simpl; by rewrite IH.
Qed.

Lemma filter_all {A} (l : list A) : List.filter (fun _ => true) l = l.
Proof. induction l as [|x l IH]; simpl; [done|]. by rewrite IH. Qed.

Lemma find_one_by_id_NoDup (l : list site_doc) d :
  NoDup (List.map s_id l) -> In d l -> find_one (by_id (s_id d)) l = Some d.
Proof.
  unfold find_one. induction l as [|x l IH]; simpl; [done|]. intros Hnd Hd.
  apply NoDup_cons in Hnd as [Hx Hnd]. unfold by_id at 1.
  destruct (String.eqb_spec (s_id x) (s_id d)) as [E|NE].
  - destruct Hd as [->|Hd]; [done|]. exfalso. apply Hx.
    rewrite list_elem_of_In, E. by apply in_map.
  - destruct Hd as [->|Hd]; [done|]. by apply IH.
Qed.

(** X3.  [get_sites] writes nothing.  With a non-empty [url] argument it
    lists exactly the records of the unfiltered listing that have this URL,
    in the same order; an empty [url] argument is no filter at all. *)
Theorem get_sites_filter (s : db) :
  exists all,
    get_sites None s = (s, Ret (SitesResp all)) /\
    length all = length (sites s) /\
    get_sites (Some "") s = (s, Ret (SitesResp all)) /\
    forall url, url <> "" ->
      get_sites (Some url) s =
      (s, Ret (SitesResp (List.filter (fun v => String.eqb (sv_url v) url) all))).
Proof.
  eexists. split; [apply get_sites_run|]. unfold find. rewrite filter_all.
  split; [by rewrite length_map|]. split.
  - rewrite get_sites_run. simpl. unfold find. by rewrite filter_all.
  - intros url Hurl. rewrite get_sites_run.
    destruct (String.eqb_spec url "") as [->|_]; [done|]. simpl.
    by rewrite filter_map_views.
Qed.

(** X4.  [get_site] writes nothing; it answers [no-such-site] exactly when
    no listed site has the id, and otherwise with a record of the listing of
    [get_sites] that has this id.  When the stored ids are unique, asking
    for the id of a listed record gives that record back. *)
Theorem get_site_agrees_with_get_sites (s : db) :
  exists all,
    get_sites None s = (s, Ret (SitesResp all)) /\
    (forall site_id,
       (get_site site_id s).1 = s /\
       ((get_site site_id s).2 = Ret (Fail "no-such-site") <->
        ~ In site_id (List.map sv_id all)) /\
       forall r, (get_site site_id s).2 = Ret r ->
                 r = Fail "no-such-site" \/
                 exists v, r = SiteResp v /\ In v all /\ sv_id v = site_id) /\
    (NoDup (List.map sv_id all) ->
     forall v, In v all -> get_site (sv_id v) s = (s, Ret (SiteResp v))).
Proof.
  eexists. split; [apply get_sites_run|]. unfold find. rewrite filter_all.
  set (view := fun site => sanitize_site (site, groups_for_site s (s_url site))).
  assert (List.map sv_id (List.map view (sites s)) = List.map s_id (sites s)) as Hids
    by (by rewrite List.map_map).
  rewrite Hids. split.
  - intros site_id. rewrite get_site_run. unfold final_response. simpl.
    destruct (find_one (by_id site_id) (sites s)) as [site|] eqn:Hfind.
    + apply find_one_Some in Hfind as [Hid Hin]. apply String.eqb_eq in Hid.
      split; [done|]. split.
      * split; [done|]. intros Hno. exfalso. apply Hno. rewrite <- Hid. by apply in_map.
      * intros r [= <-]. right. eexists. split; [done|]. split; [|done].
        by apply (in_map view).
    + split; [done|]. split.
      * split; [|done]. intros _ Hin. apply in_map_iff in Hin as (d & Hid & Hd).
        pose proof (find_one_None _ _ Hfind d Hd) as Hq. unfold by_id in Hq.
        rewrite Hid, String.eqb_refl in Hq. done.
      * intros r [= <-]. by left.
  - intros Hnd v Hv. apply in_map_iff in Hv as (d & <- & Hd).
    rewrite get_site_run. unfold final_response. simpl.
    by rewrite (find_one_by_id_NoDup _ _ Hnd Hd).
Qed.

(** ** Updating and creating sites, as a whole *)

Section SiteWrites.
Context {ext : Collaborators}.

(** The sites after an update that passed validation: the two possible
    [$set]s on the first record of the id. *)
Lemma update_site_sites site_id new_site s site :
  find_one (by_id site_id) (sites s) = Some site ->
  forallb (_check_group_exists s) (default [] (r_groups new_site)) = true ->
  forallb _check_plan_exists (default [] (r_plans new_site)) = true ->
  let s' := (update_site site_id new_site s).1 in
  groups s' = groups_after_update site new_site s /\
  scanschedules s' = scanschedules s /\ siteCredentials s' = siteCredentials s /\
  exists u1 u2 : site_doc -> site_doc,
    sites s' = update_one (by_id site_id) u2 (update_one (by_id site_id) u1 (sites s)) /\
    (forall d, s_id (u1 d) = s_id d /\ s_url (u1 d) = s_url d /\
               s_created (u1 d) = s_created d) /\
    (forall d, s_id (u2 d) = s_id d /\ s_url (u2 d) = s_url d /\
               s_created (u2 d) = s_created d).
Proof.
  intros Hfind Hgroups Hplans s'. subst s'.
  rewrite (update_site_steps _ _ _ _ Hfind Hgroups Hplans).
  assert (forall l : list site_doc, update_one (by_id site_id) (fun d => d) l = l) as Hid.
  { intros l. by apply update_one_fixed. }
  destruct (r_plans new_site) as [plans|],
    (r_verification new_site) as [[[enabled|]]|].
  all: cbv beta iota zeta; cbn [vr_enabled].
  all: try match goal with
           | |- context [verification_changed ?a ?b] =>
               destruct (verification_changed a b)
           end.
  all: simpl; (split; [done|]); (split; [done|]); (split; [done|]).
  all: first
    [ by exists (set_plans plans),
        (set_verification (Verification enabled (Some (uuid4 (uuids s)))))
    | by exists (set_plans plans), (fun d => d); rewrite Hid
    | by exists (fun d => d),
        (set_verification (Verification enabled (Some (uuid4 (uuids s)))));
        rewrite Hid
    | by exists (fun d => d), (fun d => d); rewrite !Hid ].
Qed.

(** X5.  A structured failure of [update_site] ([success: false]) comes
    before any write: the database is as it was, and the reason is one of
    [no-such-site], [unknown-group] and [unknown-plan]. *)
Theorem update_site_failure_writes_nothing site_id new_site s s' reason :
  update_site site_id new_site s = (s', Ret (Fail reason)) ->
  s' = s /\
  (reason = "no-such-site" \/ reason = "unknown-group" \/ reason = "unknown-plan").
Proof.
  intros E. pose proof (update_site_rejects site_id new_site s) as Hrej.
  destruct (find_one (by_id site_id) (sites s)) as [site|] eqn:Hfind.
  2: { rewrite Hrej in E. injection E as <- <-. auto. }
  destruct Hrej as [Hg Hp].
  destruct (forallb (_check_group_exists s) (default [] (r_groups new_site)))
    eqn:Hgroups.
  2: { rewrite Hg in E by done. injection E as <- <-. auto. }
  destruct (forallb _check_plan_exists (default [] (r_plans new_site))) eqn:Hplans.
  2: { rewrite Hp in E by done. injection E as <- <-. auto. }
  exfalso. destruct (r_verification new_site) as [[[enabled|]]|] eqn:Hv.
  - destruct (update_site_stored site_id new_site s site _ enabled
                Hfind Hgroups Hplans Hv eq_refl) as (site' & _ & Hresp & _).
    rewrite E in Hresp. discriminate Hresp.
  - rewrite (update_site_steps _ _ _ _ Hfind Hgroups Hplans), Hv in E. discriminate E.
  - rewrite (update_site_steps _ _ _ _ Hfind Hgroups Hplans), Hv in E. discriminate E.
Qed.

(** X6.  The record a successful [update_site] answers with is the record
    [get_site] gives for the same id afterwards. *)
Theorem update_site_then_get_site site_id new_site s s' v :
  update_site site_id new_site s = (s', Ret (SiteResp v)) ->
  get_site site_id s' = (s', Ret (SiteResp v)).
Proof.
  intros E. rewrite get_site_run.
  pose proof (update_site_rejects site_id new_site s) as Hrej.
  destruct (find_one (by_id site_id) (sites s)) as [site|] eqn:Hfind;
    [|by rewrite Hrej in E].
  destruct Hrej as [Hg Hp].
  destruct (forallb (_check_group_exists s) (default [] (r_groups new_site)))
    eqn:Hgroups; [|by rewrite Hg in E].
  destruct (forallb _check_plan_exists (default [] (r_plans new_site)))
    eqn:Hplans; [|by rewrite Hp in E].
  rewrite (update_site_steps _ _ _ _ Hfind Hgroups Hplans) in E.
  destruct (r_verification new_site) as [[[enabled|]]|]; [|done|done].
  simpl in E. by injection E as <- <-.
Qed.

Lemma update_site_frame site_id new_site s :
  let s' := (update_site site_id new_site s).1 in
  List.map s_id (sites s') = List.map s_id (sites s) /\
  List.map s_url (sites s') = List.map s_url (sites s) /\
  List.map s_created (sites s') = List.map s_created (sites s) /\
  List.map g_name (groups s') = List.map g_name (groups s) /\
  List.map g_description (groups s') = List.map g_description (groups s) /\
  scanschedules s' = scanschedules s /\ siteCredentials s' = siteCredentials s.
Proof.
  intros s'. subst s'. pose proof (update_site_rejects site_id new_site s) as Hrej.
  destruct (find_one (by_id site_id) (sites s)) as [site|] eqn:Hfind;
    [|by rewrite Hrej].
  destruct Hrej as [Hg Hp].
  destruct (forallb (_check_group_exists s) (default [] (r_groups new_site)))
    eqn:Hgroups; [|by rewrite Hg].
  destruct (forallb _check_plan_exists (default [] (r_plans new_site)))
    eqn:Hplans; [|by rewrite Hp].
  destruct (update_site_sites site_id new_site s site Hfind Hgroups Hplans)
    as (-> & -> & -> & u1 & u2 & -> & H1 & H2).
  rewrite !map_update_one by (intros d; apply H1 || apply H2).
  rewrite !groups_after_update_keeps by done. done.
Qed.

(** X7.  Whatever the request and however it ends, [update_site] creates
    and deletes no site and no group and gives none another identity: the
    ids, URLs and creation times of the sites and the names and descriptions
    of the groups are as before, record by record, and the schedules and
    credentials are not touched. *)
Theorem update_site_keeps_identities site_id new_site s :
  let s' := (update_site site_id new_site s).1 in
  List.map s_id (sites s') = List.map s_id (sites s) /\
  List.map s_url (sites s') = List.map s_url (sites s) /\
  List.map s_created (sites s') = List.map s_created (sites s) /\
  List.map g_name (groups s') = List.map g_name (groups s) /\
  List.map g_description (groups s') = List.map g_description (groups s) /\
  scanschedules s' = scanschedules s /\ siteCredentials s' = siteCredentials s.
Proof. apply update_site_frame. Qed.

(** X8.  A successful [update_site] with [plans] replaces the stored plan
    list by the given one, and without [plans] keeps it; the record answered
    has the id, URL and creation time of the stored one, and every record of
    another id is still stored unchanged. *)
Theorem update_site_replaces_plans site_id new_site s s' v :
  update_site site_id new_site s = (s', Ret (SiteResp v)) ->
  exists site,
    find_one (by_id site_id) (sites s) = Some site /\
    sv_plans v = default (s_plans site) (r_plans new_site) /\
    sv_id v = s_id site /\ sv_url v = s_url site /\
    sv_created v = timegm (s_created site) /\
    forall d, In d (sites s) -> s_id d <> site_id -> In d (sites s').
Proof.
  intros E. pose proof (update_site_rejects site_id new_site s) as Hrej.
  destruct (find_one (by_id site_id) (sites s)) as [site|] eqn:Hfind;
    [|by rewrite Hrej in E].
  destruct Hrej as [Hg Hp].
  destruct (forallb (_check_group_exists s) (default [] (r_groups new_site)))
    eqn:Hgroups; [|by rewrite Hg in E].
  destruct (forallb _check_plan_exists (default [] (r_plans new_site)))
    eqn:Hplans; [|by rewrite Hp in E].
  destruct (r_verification new_site) as [[[enabled|]]|] eqn:Hv.
  2,3: rewrite (update_site_steps _ _ _ _ Hfind Hgroups Hplans), Hv in E;
       discriminate E.
  destruct (update_site_stored site_id new_site s site _ enabled
              Hfind Hgroups Hplans Hv eq_refl)
    as (site' & Hfind' & Hresp & Hid & Hurl & Hpl & _).
  destruct (update_site_sites site_id new_site s site Hfind Hgroups Hplans)
    as (_ & _ & _ & u1 & u2 & Hsites & H1 & H2).
  rewrite E in Hresp, Hsites, Hfind'. simpl in Hresp, Hsites, Hfind'.
  injection Hresp as ->.
  assert (site' = u2 (u1 site)) as Hsite'.
  { assert (find_one (by_id site_id) (sites s') = Some (u2 (u1 site))) as Hfind2.
    { rewrite Hsites. apply find_one_by_id_update; [apply H2|].
      apply find_one_by_id_update; [apply H1|done]. }
    congruence. }
  exists site. split; [done|]. simpl. rewrite Hpl, Hid, Hurl.
  split; [done|]. split; [done|]. split; [done|]. split.
  - rewrite Hsite'. f_equal. destruct (H2 (u1 site)) as (_ & _ & ->). apply H1.
  - intros d Hd Hne. rewrite Hsites.
    assert (by_id site_id d = false) as Hq
      by (unfold by_id; by apply String.eqb_neq).
    apply update_one_keeps; [done|]. by apply update_one_keeps.
Qed.
End SiteWrites.

Section CreateSite.
Context {ext : Collaborators}.

(** The ways [create_site] can end. *)
Lemma create_site_cases site s :
  (r_url site = None /\ create_site site s = (s, Raise TypeError)) \/
  (exists reason,
     create_site site s = (s, Ret (Fail reason)) /\
     In reason ["invalid-url"; "missing-required-field"; "unknown-group";
                "unknown-plan"; "site-already-exists"]) \/
  (exists url,
     r_url site = Some url /\ re_match site_url_regex url = true /\
     forallb (_check_group_exists s) (default [] (r_groups site)) = true /\
     forallb _check_plan_exists (default [] (r_plans site)) = true /\
     find_one (by_url url) (sites s) = None /\
     create_site site s =
     (Db (insert_doc (created_site site url s) (sites s))
         (add_site_to_groups url (default [] (r_groups site)) (groups s))
         (scanschedules s) (siteCredentials s)
         (if wants_verification site then S (S (uuids s)) else S (uuids s)),
      Ret (SiteResp
             (sanitize_site (created_site site url s, default [] (r_groups site)))))).
Proof.
  pose proof (create_site_refusals site s) as Hrej.
  destruct (r_url site) as [url|] eqn:Hurl; [|by left]. right.
  destruct (re_match site_url_regex url) eqn:Hvalid; simpl in Hrej;
    [|left; eexists; split; [exact Hrej|simpl; tauto]].
  destruct (_check_required_fields site ["url"]) eqn:Hreq; simpl in Hrej;
    [|left; eexists; split; [exact Hrej|simpl; tauto]].
  destruct (forallb (_check_group_exists s) _) eqn:Hgroups; simpl in Hrej;
    [|left; eexists; split; [exact Hrej|simpl; tauto]].
  destruct (forallb _check_plan_exists _) eqn:Hplans; simpl in Hrej;
    [|left; eexists; split; [exact Hrej|simpl; tauto]].
  destruct (find_one (by_url url) (sites s)) eqn:Hfind;
    [left; eexists; split; [exact Hrej|simpl; tauto]|].
  right. exists url. repeat (split; [done|]).
  by apply create_site_steps.
Qed.

Lemma find_one_by_url_None url (l : list site_doc) :
  find_one (by_url url) l = None <-> ~ In url (List.map s_url l).
Proof.
  split.
  - intros H Hin. apply in_map_iff in Hin as (d & Hd & Hin).
    pose proof (find_one_None _ _ H d Hin) as Hq. unfold by_url in Hq.
    by rewrite Hd, String.eqb_refl in Hq.
  - intros H. destruct (find_one (by_url url) l) as [d|] eqn:Hfind; [|done].
    apply find_one_Some in Hfind as [Hq Hin]. apply String.eqb_eq in Hq.
    exfalso. apply H. rewrite <- Hq. by apply in_map.
Qed.

Lemma find_one_by_id_None site_id (l : list site_doc) :
  find_one (by_id site_id) l = None <-> ~ In site_id (List.map s_id l).
Proof.
  split.
  - intros H Hin. apply in_map_iff in Hin as (d & Hd & Hin).
    pose proof (find_one_None _ _ H d Hin) as Hq. unfold by_id in Hq.
    by rewrite Hd, String.eqb_refl in Hq.
  - intros H. destruct (find_one (by_id site_id) l) as [d|] eqn:Hfind; [|done].
    apply find_one_Some in Hfind as [Hq Hin]. apply String.eqb_eq in Hq.
    exfalso. apply H. rewrite <- Hq. by apply in_map.
Qed.

Lemma existsb_of_map {A B} (p : B -> bool) (f : A -> B) l :
  existsb (fun x => p (f x)) l = existsb p (List.map f l).
Proof. induction l as [|x l IH]; simpl; [done|]. by rewrite IH. Qed.

Lemma check_group_exists_names s s' group_name :
  List.map g_name (groups s') = List.map g_name (groups s) ->
  _check_group_exists s' group_name = _check_group_exists s group_name.
Proof.
  unfold _check_group_exists. intros H.
  rewrite (existsb_of_map (fun n => String.eqb n group_name) g_name (groups s')).
  rewrite (existsb_of_map (fun n => String.eqb n group_name) g_name (groups s)).
  by rewrite H.
Qed.

(** X9.  [create_site] writes only when it succeeds: every other outcome,
    the [TypeError] of a body without [url] or one of the five failure
    reasons, leaves the database, the UUID supply included, as it was. *)
Theorem create_site_refusal_writes_nothing site s :
  (exists v, (create_site site s).2 = Ret (SiteResp v)) \/
  ((create_site site s).1 = s /\
   ((create_site site s).2 = Raise TypeError /\ r_url site = None \/
    exists reason,
      (create_site site s).2 = Ret (Fail reason) /\
      In reason ["invalid-url"; "missing-required-field"; "unknown-group";
                 "unknown-plan"; "site-already-exists"])).
Proof.
  destruct (create_site_cases site s) as [[Hurl ->]|[(reason & -> & Hin)|(url & H)]].
  - right. simpl. auto.
  - right. simpl. split; [done|]. right. eauto.
  - left. destruct H as (_ & _ & _ & _ & _ & ->). simpl. eauto.
Qed.

(** X10.  A successful [create_site] had a [url] that passes
    [_check_site_url] and was the URL of no stored site; it appends one
    record, leaving the stored ones in place, with a new id, that URL, the
    requested plans (none by default), the time of the request, and a
    verification that is enabled with a token exactly when the request asks
    for it; it answers with that record and the requested groups, keeps the
    names and descriptions of all groups and does not touch schedules and
    credentials. *)
Theorem create_site_success site s s' v :
  create_site site s = (s', Ret (SiteResp v)) ->
  exists url d,
    r_url site = Some url /\ _check_site_url (Some url) = Ret true /\
    ~ In url (List.map s_url (sites s)) /\
    sites s' = sites s ++ [d] /\
    s_id d = uuid4 (uuids s) /\ s_url d = url /\
    s_plans d = default [] (r_plans site) /\ s_created d = utcnow /\
    s_verification d =
      Some (if wants_verification site
            then Verification true (Some (uuid4 (S (uuids s))))
            else Verification false None) /\
    v = sanitize_site (d, default [] (r_groups site)) /\
    List.map g_name (groups s') = List.map g_name (groups s) /\
    List.map g_description (groups s') = List.map g_description (groups s) /\
    scanschedules s' = scanschedules s /\ siteCredentials s' = siteCredentials s.
Proof.
  intros E.
  destruct (create_site_cases site s)
    as [[_ E']|[(reason & E' & _)|(url & Hurl & Hvalid & _ & _ & Hfind & E')]];
    rewrite E' in E; try discriminate E.
  injection E as <- <-. exists url, (created_site site url s).
  split; [done|]. split; [by simpl; rewrite Hvalid|].
  split; [by apply find_one_by_url_None|]. simpl.
  rewrite !add_site_to_groups_keeps by done. done.
Qed.

(** X11.  Once a site is created, no request with the same [url] creates
    another: it is refused without a write, and the same request sent again
    is answered [site-already-exists]. *)
Theorem create_site_twice site s s' v :
  create_site site s = (s', Ret (SiteResp v)) ->
  create_site site s' = (s', Ret (Fail "site-already-exists")) /\
  forall site2,
    r_url site2 = r_url site ->
    (create_site site2 s').1 = s' /\
    exists reason, (create_site site2 s').2 = Ret (Fail reason).
Proof.
  intros E.
  destruct (create_site_cases site s)
    as [[_ E']|[(reason & E' & _)|(url & Hurl & Hvalid & Hgroups & Hplans & Hfind & E')]];
    rewrite E' in E; try discriminate E.
  injection E as Hs' _.
  assert (exists d, find_one (by_url url) (sites s') = Some d) as (d & Hfind').
  { rewrite <- Hs'. simpl. eexists.
    apply find_one_insert_doc; [done|]. apply String.eqb_refl. }
  assert (List.map g_name (groups s') = List.map g_name (groups s)) as Hnames.
  { rewrite <- Hs'. simpl. by apply add_site_to_groups_keeps. }
  split.
  - pose proof (create_site_refusals site s') as Hrej.
    rewrite Hurl, Hvalid, Hplans, Hfind' in Hrej.
    assert (forallb (_check_group_exists s') (default [] (r_groups site)) = true)
      as Hgroups'.
    { rewrite <- Hgroups. apply forallb_pointwise. intros n.
      by apply check_group_exists_names. }
    rewrite Hgroups' in Hrej. simpl in Hrej.
    pose proof (create_site_refusals site s) as Hrej0.
    rewrite Hurl, Hvalid in Hrej0. simpl in Hrej0.
    destruct (_check_required_fields site ["url"]); [exact Hrej|].
    simpl in Hrej0. rewrite E' in Hrej0. discriminate Hrej0.
  - intros site2 Hurl2.
    destruct (create_site_cases site2 s')
      as [[Hnone _]|[(reason & -> & _)|(url2 & Hurl2' & _ & _ & _ & Hfind2 & _)]].
    + congruence.
    + split; [done|]. by exists reason.
    + congruence.
Qed.
End CreateSite.

Section SiteInvariants.
Context {ext : Collaborators}.

(** X12.  When the id drawn for a new site is the id of no stored site,
    [get_site] on that id gives the record [create_site] answered with,
    except that its groups are the derived ones: the requested groups
    together with the groups that already held the URL before the site was
    created. *)
Theorem create_site_then_get_site site s s' v :
  create_site site s = (s', Ret (SiteResp v)) ->
  ~ In (sv_id v) (List.map s_id (sites s)) ->
  get_site (sv_id v) s' =
    (s', Ret (SiteResp (with_view_groups v (groups_for_site s' (sv_url v))))) /\
  forall n, In n (groups_for_site s' (sv_url v)) <->
            In n (sv_groups v) \/ In n (groups_for_site s (sv_url v)).
Proof.
  intros E Hfresh.
  destruct (create_site_cases site s)
    as [[_ E']|[(reason & E' & _)|(url & Hurl & Hvalid & Hgroups & Hplans & Hfind & E')]];
    rewrite E' in E; try discriminate E.
  injection E as <- <-. simpl in Hfresh. split.
  - rewrite get_site_run. unfold final_response. simpl.
    rewrite (find_one_insert_doc _ (created_site site url s)).
    + reflexivity.
    + by apply find_one_by_id_None.
    + apply String.eqb_refl.
  - intros n. simpl. apply groups_holding_add_site.
    intros k Hk. rewrite forallb_forall in Hgroups. by apply Hgroups.
Qed.

(** X13.  The stored URLs stay unique: if no two sites share a URL, none do
    after [create_site] or [update_site], whatever the request and its
    outcome. *)
Theorem site_urls_stay_unique s :
  NoDup (List.map s_url (sites s)) ->
  (forall site, NoDup (List.map s_url (sites (create_site site s).1))) /\
  (forall site_id new_site,
     NoDup (List.map s_url (sites (update_site site_id new_site s).1))).
Proof.
  intros Hnd. split.
  - intros site.
    destruct (create_site_cases site s)
      as [[_ ->]|[(reason & -> & _)|(url & _ & _ & _ & _ & Hfind & ->)]]; try done.
    simpl. unfold insert_doc. rewrite List.map_app. simpl.
    apply NoDup_app. split; [done|]. split; [|apply NoDup_singleton].
    intros u Hu Hin. apply list_elem_of_In in Hin as [<-|[]].
    apply find_one_by_url_None in Hfind. apply Hfind. by apply list_elem_of_In.
  - intros site_id new_site.
    destruct (update_site_frame site_id new_site s) as (_ & -> & _). done.
Qed.

(** X14.  Group membership keeps pointing at stored sites: if every member
    of every group is the URL of a stored site, this still holds after
    [create_site] or [update_site], whatever the request and its outcome
    (an exception after the group writes included). *)
Theorem members_stay_sites s :
  members_are_sites s ->
  (forall site, members_are_sites (create_site site s).1) /\
  (forall site_id new_site, members_are_sites (update_site site_id new_site s).1).
Proof.
  intros Hinv. split.
  - intros site.
    destruct (create_site_cases site s)
      as [[_ ->]|[(reason & -> & _)|(url & _ & _ & _ & _ & _ & ->)]]; try done.
    intros g u Hg Hu. simpl in *. unfold insert_doc. rewrite List.map_app, in_app_iff.
    destruct (add_site_to_groups_members _ _ _ _ _ Hg Hu) as [->|(g0 & Hg0 & Hu0)].
    + right. by left.
    + left. by eapply Hinv.
  - intros site_id new_site. intros g u Hg Hu.
    destruct (update_site_frame site_id new_site s) as (_ & -> & _).
    pose proof (update_site_rejects site_id new_site s) as Hrej.
    destruct (find_one (by_id site_id) (sites s)) as [site|] eqn:Hfind;
      [|rewrite Hrej in Hg; by eapply Hinv].
    destruct Hrej as [Hrg Hrp].
    destruct (forallb (_check_group_exists s) (default [] (r_groups new_site)))
      eqn:Hgroups; [|rewrite Hrg in Hg by done; by eapply Hinv].
    destruct (forallb _check_plan_exists (default [] (r_plans new_site)))
      eqn:Hplans; [|rewrite Hrp in Hg by done; by eapply Hinv].
    destruct (update_site_sites site_id new_site s site Hfind Hgroups Hplans)
      as (Hgs & _).
    rewrite Hgs in Hg.
    destruct (groups_after_update_members _ _ _ _ _ Hg Hu) as [->|(g0 & Hg0 & Hu0)].
    + apply find_one_Some in Hfind as [_ Hin]. by apply in_map.
    + by eapply Hinv.
Qed.
End SiteInvariants.

(** ** Credentials, as a whole *)

Lemma get_credInfo_run s :
  get_credInfo s = (s, Ret (CredInfoResp (fold_left credInfo_add (siteCredentials s) ∅))).
Proof.
  unfold get_credInfo. cbv [bind ret get_db]. unfold find. by rewrite filter_all.
Qed.

(** What one turn of the loop does to a lookup. *)
Lemma credInfo_add_lookup credInfo d site plan :
  (credInfo_add credInfo d !! site) ≫= (fun m => m !! plan) =
  if decide (c_site d = site /\ c_plan d = plan) then Some (masked d)
  else (credInfo !! site) ≫= (fun m => m !! plan).
Proof.
  unfold credInfo_add.
  destruct (decide (c_site d = site)) as [<-|Hsite].
  - rewrite lookup_insert_eq. simpl.
    destruct (decide (c_plan d = plan)) as [<-|Hplan].
    + rewrite lookup_insert_eq. by rewrite decide_True.
    + rewrite lookup_insert_ne by done. rewrite decide_False by tauto.
      destruct (credInfo !! c_site d) eqn:E; simpl.
      * by rewrite E.
      * rewrite lookup_insert_eq. simpl. by rewrite lookup_empty.
  - rewrite lookup_insert_ne by done. rewrite decide_False by tauto.
    destruct (credInfo !! c_site d) eqn:E; [done|].
    by rewrite lookup_insert_ne.
Qed.

Lemma credInfo_fold_lookup l : forall credInfo site plan,
  (fold_left credInfo_add l credInfo !! site) ≫= (fun m => m !! plan) =
  match find_one (by_site_plan site plan) (rev l) with
  | Some d => Some (masked d)
  | None => (credInfo !! site) ≫= (fun m => m !! plan)
  end.
Proof.
  induction l as [|d l IH] using rev_ind; intros credInfo site plan; [done|].
  rewrite fold_left_app, rev_app_distr. simpl fold_left. simpl rev. simpl app.
  rewrite credInfo_add_lookup. unfold find_one. simpl. unfold by_site_plan at 1.
  destruct (decide (c_site d = site /\ c_plan d = plan)) as [[<- <-]|Hne].
  - by rewrite !String.eqb_refl.
  - assert ((c_site d =? site)%string && (c_plan d =? plan)%string = false) as ->.
    { apply not_true_is_false. rewrite andb_true_iff, !String.eqb_eq. tauto. }
    apply IH.
Qed.

Lemma bind_lookup_Some {A} (mm : gmap string (gmap string A)) site plan x :
  mm !! site ≫= (fun m => m !! plan) = Some x <->
  exists m, mm !! site = Some m /\ m !! plan = Some x.
Proof.
  destruct (mm !! site) as [m|]; simpl.
  - split; [eauto|]. by intros (m' & [= <-] & ?).
  - split; [done|]. by intros (m' & ? & _).
Qed.

(** X15.  The listing of [get_credInfo] has an entry for a (site, plan)
    exactly when a credential with this key is stored, and the entry is the
    last stored record of the key with its password replaced by the empty
    string and its other fields as stored. *)
Theorem get_credInfo_lists_stored (s : db) :
  exists credInfo,
    get_credInfo s = (s, Ret (CredInfoResp credInfo)) /\
    forall site plan,
      (forall data,
         (exists m, credInfo !! site = Some m /\ m !! plan = Some data) <->
         exists d, find_one (by_site_plan site plan) (rev (siteCredentials s)) = Some d /\
                   data = masked d) /\
      ((exists m data, credInfo !! site = Some m /\ m !! plan = Some data) <->
       exists d, In d (siteCredentials s) /\ c_site d = site /\ c_plan d = plan).
Proof.
  eexists. split; [apply get_credInfo_run|]. intros site plan.
  assert (forall data,
    (exists m, fold_left credInfo_add (siteCredentials s) ∅ !! site = Some m /\
               m !! plan = Some data) <->
    exists d, find_one (by_site_plan site plan) (rev (siteCredentials s)) = Some d /\
              data = masked d) as Hentry.
  { intros data. rewrite <- bind_lookup_Some, credInfo_fold_lookup.
    destruct (find_one _ _) as [d|]; simpl.
    - split; [intros [= <-]; eauto|]. by intros (d' & [= <-] & ->).
    - rewrite lookup_empty. simpl. split; [done|]. by intros (d' & ? & _). }
  split; [exact Hentry|]. split.
  - intros (m & data & Hm & Hdata).
    destruct (proj1 (Hentry data)) as (d & Hd & _); [eauto|].
    apply find_one_Some in Hd as [Hq Hin]. exists d.
    apply andb_true_iff in Hq as [H1 H2]. apply String.eqb_eq in H1, H2.
    split; [by apply in_rev|done].
  - intros (d & Hin & Hsite & Hplan).
    destruct (find_one (by_site_plan site plan) (rev (siteCredentials s)))
      as [d'|] eqn:Hfind.
    + destruct (proj2 (Hentry (masked d'))) as (m & Hm & Hdata); eauto.
    + exfalso. apply in_rev in Hin.
      pose proof (find_one_None _ _ Hfind d Hin) as Hq. unfold by_site_plan in Hq.
      by rewrite Hsite, Hplan, !String.eqb_refl in Hq.
Qed.

Lemma in_update_one_inv {A} q u (l : list A) x :
  In x (update_one q u l) ->
  In x l \/ exists x0, In x0 l /\ q x0 = true /\ x = u x0.
Proof.
  induction l as [|y l IH]; simpl; [done|]. destruct (q y) eqn:Hy; simpl.
  - intros [<-|H]; [right; eauto|auto].
  - intros [<-|H]; [auto|]. destruct (IH H) as [?|(x0 & ? & ? & ?)]; [auto|].
    right. exists x0. auto.
Qed.

Lemma NoDup_map_filter {A B} (f : A -> B) p (l : list A) :
  NoDup (List.map f l) -> NoDup (List.map f (List.filter p l)).
Proof.
  induction l as [|x l IH]; simpl; [done|]. intros Hnd.
  apply NoDup_cons in Hnd as [Hx Hnd]. destruct (p x); simpl; [|auto].
  apply NoDup_cons. split; [|auto]. intros Hin. apply Hx.
  rewrite list_elem_of_In in *. apply in_map_iff in Hin as (y & Hy & Hin).
  apply filter_In in Hin as [Hin _]. apply in_map_iff. eauto.
Qed.

Lemma NoDup_map_snoc {A B} (f : A -> B) (l : list A) x :
  NoDup (List.map f l) -> ~ In (f x) (List.map f l) -> NoDup (List.map f (l ++ [x])).
Proof.
  intros Hnd Hx. rewrite List.map_app. apply NoDup_app. split; [done|].
  split; [|apply NoDup_singleton].
  intros y Hy Hin. apply list_elem_of_In in Hin as [<-|[]].
  apply Hx. by apply list_elem_of_In.
Qed.

(** [setCredentials] when the (site, plan) has no record. *)
Lemma setCredentials_insert (cred_data : cred_req) (s : db) :
  truthy (dict_get (k_authData cred_data) "remove") = false ->
  find_one (by_site_plan (k_site cred_data) (k_plan cred_data)) (siteCredentials s)
    = None ->
  setCredentials cred_data s =
  (Db (sites s) (groups s) (scanschedules s)
      (insert_doc (CredDoc (k_site cred_data) (k_plan cred_data) (k_authData cred_data))
         (siteCredentials s))
      (uuids s),
   Ret (MessageResp "Added Site Credentials" true)).
Proof.
  intros Hremove Hfind. unfold setCredentials. rewrite Hremove. run_m.
  by rewrite Hfind.
Qed.

(** The three ways [setCredentials] writes. *)
Lemma setCredentials_cases (cred_data : cred_req) (s : db) :
  let q := by_site_plan (k_site cred_data) (k_plan cred_data) in
  exists creds message,
    setCredentials cred_data s =
    (Db (sites s) (groups s) (scanschedules s) creds (uuids s),
     Ret (MessageResp message true)) /\
    (creds = remove_docs q (siteCredentials s) \/
     (find_one q (siteCredentials s) = None /\
      creds = insert_doc
                (CredDoc (k_site cred_data) (k_plan cred_data) (k_authData cred_data))
                (siteCredentials s)) \/
     exists upd, creds = update_one q (set_authData upd) (siteCredentials s)).
Proof.
  intros q. destruct (truthy (dict_get (k_authData cred_data) "remove")) eqn:Hremove.
  - eexists _, _. split; [by apply setCredentials_remove|]. by left.
  - destruct (find_one q (siteCredentials s)) as [old|] eqn:Hfind.
    + destruct (setCredentials_update _ _ _ Hremove Hfind) as (upd & E & _).
      eexists _, _. split; [exact E|]. right; right. by exists upd.
    + eexists _, _. split; [by apply setCredentials_insert|]. right; left. done.
Qed.

(** X16.  A first [setCredentials] for a (site, plan), without a truthy
    [remove], stores the request's [authData] as it is, password included,
    after the records already there; [get_credInfo] then lists it under this
    (site, plan) with the same fields and an empty password. *)
Theorem setCredentials_new_then_listed (cred_data : cred_req) (s : db) :
  truthy (dict_get (k_authData cred_data) "remove") = false ->
  find_one (by_site_plan (k_site cred_data) (k_plan cred_data)) (siteCredentials s)
    = None ->
  let s' := (setCredentials cred_data s).1 in
  let stored := CredDoc (k_site cred_data) (k_plan cred_data) (k_authData cred_data) in
  siteCredentials s' = siteCredentials s ++ [stored] /\
  exists credInfo m,
    get_credInfo s' = (s', Ret (CredInfoResp credInfo)) /\
    credInfo !! k_site cred_data = Some m /\
    m !! k_plan cred_data =
      Some (CredDoc (k_site cred_data) (k_plan cred_data)
              (<["password" := PStr ""]> (k_authData cred_data))).
Proof.
  intros Hremove Hfind s' stored. subst s'.
  rewrite (setCredentials_insert _ _ Hremove Hfind). simpl. split; [done|].
  rewrite get_credInfo_run. simpl. unfold insert_doc. rewrite fold_left_app. simpl.
  eexists _, _. split; [reflexivity|]. unfold credInfo_add at 1.
  rewrite lookup_insert_eq. split; [reflexivity|]. apply lookup_insert_eq.
Qed.

(** X17.  Whatever the request, [setCredentials] reports success, touches
    no collection but the credentials, and there leaves every record of
    another (site, plan) stored as it was, adding none. *)
Theorem setCredentials_frame (cred_data : cred_req) (s : db) :
  let s' := (setCredentials cred_data s).1 in
  (exists message, (setCredentials cred_data s).2 = Ret (MessageResp message true)) /\
  sites s' = sites s /\ groups s' = groups s /\ scanschedules s' = scanschedules s /\
  uuids s' = uuids s /\
  forall d,
    by_site_plan (k_site cred_data) (k_plan cred_data) d = false ->
    (In d (siteCredentials s') <-> In d (siteCredentials s)).
Proof.
  intros s'. subst s'.
  destruct (setCredentials_cases cred_data s) as (creds & message & -> & Hcreds).
  simpl. split; [by exists message|]. do 4 (split; [done|]). intros d Hd.
  destruct Hcreds as [->|[[_ ->]|[upd ->]]].
  - unfold remove_docs. rewrite filter_In, Hd. simpl. tauto.
  - unfold insert_doc. rewrite in_app_iff. simpl. split; [|auto].
    intros [H|[<-|[]]]; [done|]. unfold by_site_plan in Hd. simpl in Hd.
    by rewrite !String.eqb_refl in Hd.
  - split.
    + intros H. apply in_update_one_inv in H as [H|(d0 & _ & Hq & ->)]; [done|].
      rewrite by_site_plan_set_authData in Hd. congruence.
    + by apply update_one_keeps.
Qed.

(** X18.  [setCredentials] keeps the (site, plan) keys of the stored
    credentials unique. *)
Theorem setCredentials_keeps_keys_unique (cred_data : cred_req) (s : db) :
  NoDup (List.map cred_key (siteCredentials s)) ->
  NoDup (List.map cred_key (siteCredentials (setCredentials cred_data s).1)).
Proof.
  intros Hnd.
  destruct (setCredentials_cases cred_data s) as (creds & message & -> & Hcreds).
  simpl. destruct Hcreds as [->|[[Hfind ->]|[upd ->]]].
  - by apply NoDup_map_filter.
  - apply NoDup_map_snoc; [done|]. intros Hin.
    apply in_map_iff in Hin as (d & Hkey & Hin).
    pose proof (find_one_None _ _ Hfind d Hin) as Hq.
    unfold cred_key in Hkey. simpl in Hkey. injection Hkey as Hs Hp.
    unfold by_site_plan in Hq. by rewrite Hs, Hp, !String.eqb_refl in Hq.
  - by rewrite map_update_one.
Qed.

(** ** Schedules, as a whole *)

Lemma update_one_twice {A} q (u1 u2 : A -> A) (l : list A) :
  (forall x, q (u1 x) = q x) -> (forall x, u2 (u1 x) = u2 x) ->
  update_one q u2 (update_one q u1 l) = update_one q u2 l.
Proof.
  intros Hq Hu. induction l as [|x l IH]; simpl; [done|].
  destruct (q x) eqn:Hx; simpl.
  - by rewrite Hq, Hx, Hu.
  - by rewrite Hx, IH.
Qed.

Lemma update_one_snoc {A} q (u : A -> A) (l : list A) x :
  find_one q l = None -> q x = true ->
  update_one q u (l ++ [x]) = l ++ [u x].
Proof.
  unfold find_one. induction l as [|y l IH]; simpl; intros Hfind Hx.
  - by rewrite Hx.
  - destruct (q y); [done|]. by rewrite IH.
Qed.

Section ScheduleWhole.
Context {ext : Collaborators}.

(** X19.  With two requests on the same (target, plan), the later one
    wins: if it validates, the database and the response after both are those
    of the later one alone. *)
Theorem scanschedule_last_request_wins (a b : schedule_req) (s : db) :
  q_target a = q_target b -> q_plan a = q_plan b ->
  check_cron (request_crontab (q_schedule b)) = [] ->
  scanschedule b (scanschedule a s).1 = scanschedule b s.
Proof.
  intros Ht Hp Hb.
  destruct (check_cron (request_crontab (q_schedule a))) as [|e errors] eqn:Ha.
  2: { rewrite (scanschedule_invalid a) by (by rewrite Ha). done. }
  rewrite (scanschedule_valid a s Ha), !(scanschedule_valid b _ Hb). simpl.
  rewrite Ht, Hp.
  set (q := by_target_plan (q_target b) (q_plan b)).
  destruct (find_one q (scanschedules s)) as [d0|] eqn:Hfind.
  - rewrite (find_one_update_one q _ _ d0 Hfind)
      by (apply find_one_Some in Hfind as [Hq _]; exact Hq).
    by rewrite update_one_twice.
  - rewrite (find_one_insert_doc q (new_descriptor a) _ Hfind)
      by (subst q; rewrite <- Ht, <- Hp; by apply by_target_plan_refl).
    unfold insert_doc. rewrite update_one_snoc; [|done|].
    + do 3 f_equal. unfold new_descriptor, set_crontab_enabled. simpl.
      by rewrite Ht, Hp.
    + subst q. rewrite <- Ht, <- Hp. by apply by_target_plan_refl.
Qed.

(** X20.  Sending a /scanschedule request a second time changes nothing:
    the database after the second call is the one after the first, and the
    response is the same. *)
Theorem scanschedule_idempotent (site : schedule_req) (s : db) :
  scanschedule site (scanschedule site s).1 = scanschedule site s.
Proof.
  destruct (check_cron (request_crontab (q_schedule site))) as [|e errors] eqn:Hc.
  2: { by rewrite !(scanschedule_invalid site) by (by rewrite Hc). }
  rewrite (scanschedule_valid site s Hc), !(scanschedule_valid site _ Hc). simpl.
  set (q := by_target_plan (q_target site) (q_plan site)).
  destruct (find_one q (scanschedules s)) as [d0|] eqn:Hfind.
  - rewrite (find_one_update_one q _ _ d0 Hfind)
      by (apply find_one_Some in Hfind as [Hq _]; exact Hq).
    by rewrite update_one_twice.
  - rewrite (find_one_insert_doc q (new_descriptor site) _ Hfind)
      by (by apply by_target_plan_refl).
    unfold insert_doc. rewrite update_one_snoc; [done|done|].
    by apply by_target_plan_refl.
Qed.

(** X21.  [scanschedule] keeps the (site, plan) keys of the stored schedules
    unique: it adds a record only for a key that has none. *)
Theorem scanschedule_keeps_keys_unique (site : schedule_req) (s : db) :
  NoDup (List.map schedule_key (scanschedules s)) ->
  NoDup (List.map schedule_key (scanschedules (scanschedule site s).1)).
Proof.
  intros Hnd.
  destruct (check_cron (request_crontab (q_schedule site))) as [|e errors] eqn:Hc.
  2: { by rewrite (scanschedule_invalid site) by (by rewrite Hc). }
  rewrite (scanschedule_valid site s Hc). simpl.
  destruct (find_one _ (scanschedules s)) as [d0|] eqn:Hfind.
  - by rewrite map_update_one.
  - apply NoDup_map_snoc; [done|]. intros Hin.
    apply in_map_iff in Hin as (d & Hkey & Hin).
    pose proof (find_one_None _ _ Hfind d Hin) as Hq.
    unfold schedule_key in Hkey. simpl in Hkey. injection Hkey as Hs Hp.
    unfold by_target_plan in Hq. by rewrite Hs, Hp, !String.eqb_refl in Hq.
Qed.
End ScheduleWhole.

Section PartialUpdate.
Context {ext : Collaborators}.

(** X22.  [update_site] is not atomic: a request on an existing site whose
    groups and plans exist but whose body lacks [verification] (or whose
    [verification] lacks [enabled]) ends in [KeyError], and yet its group
    writes are made: with unique group names, the groups that hold the site
    afterwards are exactly the requested ones. *)
Theorem update_site_partial_writes site_id new_site s site requested :
  find_one (by_id site_id) (sites s) = Some site ->
  forallb (_check_group_exists s) requested = true ->
  forallb _check_plan_exists (default [] (r_plans new_site)) = true ->
  r_groups new_site = Some requested ->
  r_verification new_site = None \/
    r_verification new_site = Some (VerificationReq None) ->
  NoDup (List.map g_name (groups s)) ->
  let s' := (update_site site_id new_site s).1 in
  (exists key, (update_site site_id new_site s).2 = Raise (KeyError key)) /\
  forall n, In n (groups_for_site s' (s_url site)) <-> In n requested.
Proof.
  intros Hfind Hgroups Hplans Hreq Hv Hnd s'. subst s'.
  assert (forallb (_check_group_exists s) (default [] (r_groups new_site)) = true)
    as Hgroups' by (by rewrite Hreq).
  destruct (update_site_run site_id new_site s site Hfind Hgroups' Hplans)
    as (gs & Hgs & E).
  rewrite Hreq in Hgs. specialize (Hgs Hnd).
  assert (forall n, In n (groups_holding (s_url site) gs) <-> In n requested) as Hiff.
  { intros n. rewrite Hgs. apply reconciled_groups_for_site; [done|].
    intros m Hm. rewrite forallb_forall in Hgroups. by apply Hgroups. }
  rewrite E. destruct Hv as [-> | ->]; simpl; (split; [eauto|exact Hiff]).
Qed.
End PartialUpdate.

Lemma update_site_partial_writes_witness :
  (exists key,
     (@update_site model_ext "b263bdc6" regroup_only_request example_db).2 =
     Raise (KeyError key)) /\
  same_elements
    (groups_for_site
       (@update_site model_ext "b263bdc6" regroup_only_request example_db).1
       "https://www.mozilla.com")
    ["B"; "C"].
Proof.
  destruct (@update_site_partial_writes model_ext "b263bdc6" regroup_only_request
              example_db mozilla ["B"; "C"] eq_refl eq_refl eq_refl eq_refl
              (or_introl eq_refl) example_groups_NoDup) as [Hraise Hiff].
  split; [exact Hraise|]. exact Hiff.
Defined.

(** ** The further properties on the example data *)

Lemma update_site_failure_writes_nothing_witness :
  @update_site model_ext "b263bdc6" ghost_only_request example_db =
    (example_db, Ret (Fail "unknown-group")) /\
  example_db = example_db /\
  ("unknown-group" = "no-such-site" \/ "unknown-group" = "unknown-group" \/
   "unknown-group" = "unknown-plan").
Proof.
  assert (@update_site model_ext "b263bdc6" ghost_only_request example_db =
          (example_db, Ret (Fail "unknown-group"))) as E by (vm_compute; reflexivity).
  split; [exact E|].
  exact (@update_site_failure_writes_nothing model_ext _ _ _ _ _ E).
Defined.

Lemma update_site_then_get_site_witness :
  @update_site model_ext "b263bdc6" regroup_request example_db =
    (regrouped_db, Ret (SiteResp regrouped_view)) /\
  get_site "b263bdc6" regrouped_db = (regrouped_db, Ret (SiteResp regrouped_view)).
Proof.
  assert (@update_site model_ext "b263bdc6" regroup_request example_db =
          (regrouped_db, Ret (SiteResp regrouped_view))) as E
    by (vm_compute; reflexivity).
  split; [exact E|].
  exact (@update_site_then_get_site model_ext _ _ _ _ _ E).
Defined.

Lemma update_site_replaces_plans_witness :
  exists site,
    find_one (by_id "b263bdc6") (sites example_db) = Some site /\
    sv_plans replanned_view = default (s_plans site) (r_plans replan_request) /\
    sv_id replanned_view = s_id site /\ sv_url replanned_view = s_url site /\
    sv_created replanned_view = timegm (s_created site) /\
    forall d, In d (sites example_db) -> s_id d <> "b263bdc6" ->
              In d (sites (@update_site model_ext "b263bdc6" replan_request
                             example_db).1).
Proof.
  apply (@update_site_replaces_plans model_ext "b263bdc6" replan_request example_db
           (@update_site model_ext "b263bdc6" replan_request example_db).1
           replanned_view).
  vm_compute. reflexivity.
Defined.

Lemma create_site_success_witness :
  (@create_site model_ext new_site_request example_db).2 =
    Ret (SiteResp created_view) /\
  exists url d,
    r_url new_site_request = Some url /\ _check_site_url (Some url) = Ret true /\
    ~ In url (List.map s_url (sites example_db)) /\
    sites (@create_site model_ext new_site_request example_db).1 =
      sites example_db ++ [d] /\
    s_url d = "http://new.example.org" /\ s_plans d = ["nmap"].
Proof.
  assert (@create_site model_ext new_site_request example_db =
          ((@create_site model_ext new_site_request example_db).1,
           Ret (SiteResp created_view))) as E by (vm_compute; reflexivity).
  split; [by rewrite E|].
  destruct (@create_site_success model_ext _ _ _ _ E)
    as (url & d & Hurl & Hvalid & Hnew & Hsites & _ & Hd & Hplans & _).
  exists url, d. injection Hurl as <-. by rewrite Hd, Hplans.
Defined.

Lemma create_site_twice_witness :
  (@create_site model_ext new_site_request example_db).2 =
    Ret (SiteResp created_view) /\
  @create_site model_ext new_site_request
    (@create_site model_ext new_site_request example_db).1 =
  ((@create_site model_ext new_site_request example_db).1,
   Ret (Fail "site-already-exists")).
Proof.
  assert (@create_site model_ext new_site_request example_db =
          ((@create_site model_ext new_site_request example_db).1,
           Ret (SiteResp created_view))) as E by (vm_compute; reflexivity).
  split; [by rewrite E|].
  exact (proj1 (@create_site_twice model_ext _ _ _ _ E)).
Defined.

Lemma create_site_then_get_site_witness :
  ~ In (sv_id created_view) (List.map s_id (sites example_db)) /\
  get_site "uuid-0" (@create_site model_ext new_site_request example_db).1 =
  ((@create_site model_ext new_site_request example_db).1,
   Ret (SiteResp created_view)).
Proof.
  assert (@create_site model_ext new_site_request example_db =
          ((@create_site model_ext new_site_request example_db).1,
           Ret (SiteResp created_view))) as E by (vm_compute; reflexivity).
  assert (~ In (sv_id created_view) (List.map s_id (sites example_db))) as Hfresh
    by (simpl; intuition discriminate).
  split; [exact Hfresh|].
  refine (eq_trans (proj1 (@create_site_then_get_site model_ext _ _ _ _ E Hfresh)) _).
  vm_compute. reflexivity.
Defined.

Lemma site_urls_stay_unique_witness :
  NoDup (List.map s_url (sites example_db)) /\
  NoDup (List.map s_url
           (sites (@create_site model_ext new_site_request example_db).1)) /\
  NoDup (List.map s_url
           (sites (@update_site model_ext "b263bdc6" replan_request example_db).1)).
Proof.
  assert (NoDup (List.map s_url (sites example_db))) as Hnd
    by (simpl; apply NoDup_singleton).
  split; [exact Hnd|]. split.
  - apply (proj1 (@site_urls_stay_unique model_ext example_db Hnd)).
  - apply (proj2 (@site_urls_stay_unique model_ext example_db Hnd)).
Defined.

Lemma consistent_db_members : members_are_sites consistent_db.
Proof.
  intros g u Hg Hu. simpl in *.
  destruct Hg as [<-|[<-|[]]]; simpl in Hu; intuition.
Defined.

Lemma members_stay_sites_witness :
  members_are_sites consistent_db /\
  members_are_sites (@create_site model_ext new_site_request consistent_db).1 /\
  members_are_sites
    (@update_site model_ext "b263bdc6" regroup_request consistent_db).1.
Proof.
  split; [exact consistent_db_members|]. split.
  - apply (proj1 (@members_stay_sites model_ext consistent_db consistent_db_members)).
  - apply (proj2 (@members_stay_sites model_ext consistent_db consistent_db_members)).
Defined.

Lemma setCredentials_new_then_listed_witness :
  siteCredentials (setCredentials edit_request scheduled_db).1 =
    [CredDoc "https://www.mozilla.com" "basic" (k_authData edit_request)] /\
  exists credInfo m,
    get_credInfo (setCredentials edit_request scheduled_db).1 =
      ((setCredentials edit_request scheduled_db).1, Ret (CredInfoResp credInfo)) /\
    credInfo !! "https://www.mozilla.com" = Some m /\
    m !! "basic" =
      Some (CredDoc "https://www.mozilla.com" "basic"
              (<["password" := PStr ""]> (k_authData edit_request))).
Proof.
  exact (setCredentials_new_then_listed edit_request scheduled_db eq_refl eq_refl).
Defined.

Lemma setCredentials_keeps_keys_unique_witness :
  NoDup (List.map cred_key (siteCredentials example_db)) /\
  NoDup (List.map cred_key (siteCredentials (setCredentials edit_request example_db).1)) /\
  NoDup (List.map cred_key
           (siteCredentials (setCredentials remove_request example_db).1)).
Proof.
  assert (NoDup (List.map cred_key (siteCredentials example_db))) as Hnd
    by (simpl; apply NoDup_singleton).
  split; [exact Hnd|]. split.
  - exact (setCredentials_keeps_keys_unique edit_request example_db Hnd).
  - exact (setCredentials_keeps_keys_unique remove_request example_db Hnd).
Defined.

Lemma scanschedule_last_request_wins_witness :
  @check_cron model_ext (request_crontab (q_schedule keep_request)) = [] /\
  @scanschedule model_ext keep_request
    (@scanschedule model_ext (schedule_request nightly) empty_db).1 =
  @scanschedule model_ext keep_request empty_db.
Proof.
  assert (@check_cron model_ext (request_crontab (q_schedule keep_request)) = [])
    as Hvalid by (vm_compute; reflexivity).
  split; [exact Hvalid|].
  exact (@scanschedule_last_request_wins model_ext (schedule_request nightly)
           keep_request empty_db eq_refl eq_refl Hvalid).
Defined.

Lemma scanschedule_keeps_keys_unique_witness :
  NoDup (List.map schedule_key (scanschedules scheduled_db)) /\
  NoDup (List.map schedule_key
           (scanschedules (@scanschedule model_ext keep_request scheduled_db).1)).
Proof.
  assert (NoDup (List.map schedule_key (scanschedules scheduled_db))) as Hnd
    by (simpl; apply NoDup_singleton).
  split; [exact Hnd|].
  exact (@scanschedule_keeps_keys_unique model_ext keep_request scheduled_db Hnd).
Defined.
